(** * Crop recommendation notebook (model.ipynb): a shallow embedding

    The notebook trains a decision tree on a table of crop samples, checks a
    remote key-value store, reads four measurements from the keyboard,
    predicts a crop and publishes it.  This file embeds the notebook's own
    functions ([preprocess_data], [train_and_evaluate_model],
    [get_valid_input], [predict_and_send_to_firebase], [main]) together with
    the behaviour of the library pieces they call, and proves the properties
    the design document states about them. *)

From Stdlib Require Import ZArith QArith Qround List String Ascii Bool Lia.
From Stdlib Require Import Permutation SpecFloat DecimalString.
Import ListNotations.

Local Close Scope Q_scope.
Local Open Scope string_scope.
Local Open Scope list_scope.
Local Open Scope Z_scope.

(** ** Python floats: IEEE binary64 *)

Module Float64.

Definition prec : Z := 53.
Definition emax : Z := 1024.

Definition float : Type := spec_float.

Definition nan : float := S754_nan.
Definition inf (neg : bool) : float := S754_infinity neg.

Definition add : float -> float -> float := SFadd prec emax.
Definition sub : float -> float -> float := SFsub prec emax.
Definition mul : float -> float -> float := SFmul prec emax.
Definition div : float -> float -> float := SFdiv prec emax.
Definition sqrt : float -> float := SFsqrt prec emax.

(** [float(n)] for a Python int, rounded to nearest even. *)
Definition of_Z (n : Z) : float := binary_normalize prec emax n 0 false.

(** The decimal [(-1)^neg * m * 10^e10], correctly rounded (what CPython's
    [float(str)] computes from the digits it has read). *)
Definition of_decimal (neg : bool) (m : Z) (e10 : Z) : float :=
  if m =? 0 then S754_zero neg
  else if 0 <=? e10 then
    binary_normalize prec emax (cond_Zopp neg (m * 10 ^ e10)) 0 false
  else
    let '(q, e, l) := SFdiv_core_binary prec emax m 0 (10 ^ (- e10)) 0 in
    binary_round_aux prec emax neg q e l.

Definition is_finite (f : float) : bool :=
  match f with
  | S754_zero _ | S754_finite _ _ _ => true
  | S754_infinity _ | S754_nan => false
  end.

(** The real number a finite float stands for. *)
Definition to_Q (f : float) : option Q :=
  match f with
  | S754_zero _ => Some (inject_Z 0)
  | S754_finite s m e =>
      let v := cond_Zopp s (Zpos m) in
      Some (if 0 <=? e then inject_Z (v * 2 ^ e)
            else Qmake v (Z.to_pos (2 ^ (- e))))
  | S754_infinity _ | S754_nan => None
  end.

(** Python compares an int with a float exactly, without converting the
    int.  [compare_Z n f] is the order of [n] relative to [f]; [None] when
    [f] is NaN, for which every comparison is false. *)
Definition compare_Z (n : Z) (f : float) : option comparison :=
  match f with
  | S754_nan => None
  | S754_infinity s => Some (if s then Gt else Lt)
  | S754_zero _ => Some (n ?= 0)
  | S754_finite s m e =>
      let v := cond_Zopp s (Zpos m) in
      Some (if 0 <=? e then n ?= v * 2 ^ e else n * 2 ^ (- e) ?= v)
  end.

(** [n <= f] *)
Definition Z_le (n : Z) (f : float) : bool :=
  match compare_Z n f with
  | Some (Lt | Eq) => true
  | _ => false
  end.

(** [f <= n] *)
Definition le_Z (f : float) (n : Z) : bool :=
  match compare_Z n f with
  | Some (Gt | Eq) => true
  | _ => false
  end.

End Float64.

Definition float : Type := Float64.float.

(** ** [float(s)]: parsing a line of text

    A line is a Python [str]; its text is held here as the bytes of its
    UTF-8 encoding.  CPython's [float] first rewrites a [str] that is not
    pure ASCII: every Unicode blank becomes a space and every Unicode
    decimal digit its ASCII digit, any other character from code point 127
    on becomes a question mark and ends the text.  The ASCII text is
    then stripped of the C blanks (tab to carriage return, and space) at
    both ends and must match, as a whole, the grammar of the language
    reference:
<<
    floatvalue  ::= [sign] (floatnumber | "inf" | "infinity" | "nan")
    floatnumber ::= number [exponent]
    number      ::= [digitpart] "." digitpart | digitpart ["."]
    exponent    ::= ("e" | "E") [sign] digitpart
    digitpart   ::= digit (["_"] digit)*
>>
    with the three words matched without regard to case.  The two character
    tables are those of Unicode 14.0.0, the database of CPython 3.11.  Bytes
    that are not the UTF-8 encoding of a text are no line of a keyboard;
    [input] would raise [UnicodeDecodeError], a [ValueError], and the parse
    answers [None] for them too. *)

Module PyFloat.

(** [Py_ISSPACE]: the blanks of the C locale. *)
Definition is_space (c : ascii) : bool :=
  let n := N_of_ascii c in
  (((9 <=? n) && (n <=? 13)) || (n =? 32))%N.

(** The code points of a UTF-8 byte sequence: shortest encodings only, no
    surrogates, nothing above U+10FFFF. *)
Definition continuation (b : N) : bool := ((128 <=? b) && (b <? 192))%N.

Fixpoint decode_utf8 (bs : list N) : option (list N) :=
  match bs with
  | [] => Some []
  | b0 :: r0 =>
      if (b0 <? 128)%N then option_map (cons b0) (decode_utf8 r0)
      else if ((194 <=? b0) && (b0 <? 224))%N then
        match r0 with
        | b1 :: r1 =>
            if continuation b1 then
              option_map (cons ((b0 - 192) * 64 + (b1 - 128))%N)
                (decode_utf8 r1)
            else None
        | _ => None
        end
      else if ((224 <=? b0) && (b0 <? 240))%N then
        match r0 with
        | b1 :: b2 :: r2 =>
            let cp := ((b0 - 224) * 4096 + (b1 - 128) * 64 + (b2 - 128))%N in
            if continuation b1 && continuation b2 && (2048 <=? cp)%N
               && negb ((55296 <=? cp) && (cp <? 57344))%N
            then option_map (cons cp) (decode_utf8 r2)
            else None
        | _ => None
        end
      else if ((240 <=? b0) && (b0 <? 245))%N then
        match r0 with
        | b1 :: b2 :: b3 :: r3 =>
            let cp := ((b0 - 240) * 262144 + (b1 - 128) * 4096
                       + (b2 - 128) * 64 + (b3 - 128))%N in
            if continuation b1 && continuation b2 && continuation b3
               && (65536 <=? cp)%N && (cp <? 1114112)%N
            then option_map (cons cp) (decode_utf8 r3)
            else None
        | _ => None
        end
      else None
  end.

(** [Py_UNICODE_ISSPACE] from code point 127 on. *)
Definition unicode_isspace (ch : N) : bool :=
  (existsb (N.eqb ch) [133; 160; 5760; 8232; 8233; 8239; 8287; 12288]
   || ((8192 <=? ch) && (ch <=? 8202)))%N.

(** The decimal digits come in runs of ten, zero to nine; these are the
    code points of the zeros. *)
Definition decimal_zeros : list N :=
  [ 48; 1632; 1776; 1984; 2406; 2534; 2662; 2790; 2918; 3046; 3174; 3302;
    3430; 3558; 3664; 3792; 3872; 4160; 4240; 6112; 6160; 6470; 6608; 6784;
    6800; 6992; 7088; 7232; 7248; 42528; 43216; 43264; 43472; 43504; 43600;
    44016; 65296; 66720; 68912; 69734; 69872; 69942; 70096; 70384; 70736;
    70864; 71248; 71360; 71472; 71904; 72016; 72784; 73040; 73120; 92768;
    92864; 93008; 120782; 120792; 120802; 120812; 120822; 123200; 123632;
    125264; 130032 ]%N.

(** [Py_UNICODE_TODECIMAL] *)
Definition todecimal (ch : N) : option N :=
  match find (fun z => (z <=? ch) && (ch <? z + 10))%N decimal_zeros with
  | Some z => Some (ch - z)%N
  | None => None
  end.

(** The rewriting of a text that is not pure ASCII. *)
Fixpoint to_ascii (cps : list N) : list ascii :=
  match cps with
  | [] => []
  | ch :: r =>
      if (ch <? 127)%N then ascii_of_N ch :: to_ascii r
      else if unicode_isspace ch then " "%char :: to_ascii r
      else
        match todecimal ch with
        | Some d => ascii_of_N (48 + d) :: to_ascii r
        | None => ["?"%char]
        end
  end.

(** The ASCII text that is parsed; [None] for bytes that are no UTF-8. *)
Definition ascii_text (bytes : list ascii) : option (list ascii) :=
  match decode_utf8 (map N_of_ascii bytes) with
  | Some cps =>
      if forallb (fun ch => ch <? 128)%N cps then Some bytes
      else Some (to_ascii cps)
  | None => None
  end.

Definition is_digit (c : ascii) : bool :=
  let n := N_of_ascii c in ((48 <=? n) && (n <=? 57))%N.

Definition digit_value (c : ascii) : Z := Z.of_N (N_of_ascii c) - 48.

Definition lower (c : ascii) : ascii :=
  let n := N_of_ascii c in
  if ((65 <=? n) && (n <=? 90))%N then ascii_of_N (n + 32) else c.

Fixpoint lstrip (s : list ascii) : list ascii :=
  match s with
  | c :: r => if is_space c then lstrip r else s
  | [] => []
  end.

Definition strip (s : list ascii) : list ascii :=
  rev (lstrip (rev (lstrip s))).

(** [(["_"] digit)*], greedily; returns the digits read and what follows. *)
Fixpoint digits_tail (s : list ascii) : list Z * list ascii :=
  match s with
  | c :: r =>
      if is_digit c then
        let '(ds, r') := digits_tail r in (digit_value c :: ds, r')
      else if Ascii.eqb c "_" then
        match r with
        | d :: r2 =>
            if is_digit d then
              let '(ds, r') := digits_tail r2 in (digit_value d :: ds, r')
            else ([], s)
        | [] => ([], s)
        end
      else ([], s)
  | [] => ([], [])
  end.

Definition digitpart (s : list ascii) : option (list Z * list ascii) :=
  match s with
  | c :: r =>
      if is_digit c then
        let '(ds, r') := digits_tail r in Some (digit_value c :: ds, r')
      else None
  | [] => None
  end.

(** Integer digits, fraction digits, rest. *)
Definition number (s : list ascii)
  : option (list Z * list Z * list ascii) :=
  match digitpart s with
  | Some (ip, r) =>
      match r with
      | "."%char :: r2 =>
          match digitpart r2 with
          | Some (fp, r3) => Some (ip, fp, r3)
          | None => Some (ip, [], r2)
          end
      | _ => Some (ip, [], r)
      end
  | None =>
      match s with
      | "."%char :: r2 =>
          match digitpart r2 with
          | Some (fp, r3) => Some ([], fp, r3)
          | None => None
          end
      | _ => None
      end
  end.

Definition sign (s : list ascii) : bool * list ascii :=
  match s with
  | "-"%char :: r => (true, r)
  | "+"%char :: r => (false, r)
  | _ => (false, s)
  end.

Definition digits_to_Z (ds : list Z) : Z :=
  fold_left (fun acc d => 10 * acc + d) ds 0.

(** The exponent part must reach the end of the text. *)
Definition exponent (s : list ascii) : option Z :=
  match s with
  | [] => Some 0
  | c :: r =>
      if Ascii.eqb (lower c) "e" then
        let '(neg, r1) := sign r in
        match digitpart r1 with
        | Some (ds, []) => Some (cond_Zopp neg (digits_to_Z ds))
        | _ => None
        end
      else None
  end.

Definition floatnumber (neg : bool) (s : list ascii) : option float :=
  match number s with
  | Some (ip, fp, r) =>
      match exponent r with
      | Some e =>
          Some (Float64.of_decimal neg (digits_to_Z (ip ++ fp))
                  (e - Z.of_nat (List.length fp)))
      | None => None
      end
  | None => None
  end.

(** [Some v] when [float(s)] returns [v]; [None] when it raises
    [ValueError]. *)
Definition float_of_string (s : string) : option float :=
  match ascii_text (list_ascii_of_string s) with
  | Some text =>
      let '(neg, body) := sign (strip text) in
      let word := string_of_list_ascii (map lower body) in
      if String.eqb word "inf" || String.eqb word "infinity" then
        Some (Float64.inf neg)
      else if String.eqb word "nan" then Some Float64.nan
      else floatnumber neg body
  | None => None
  end.

End PyFloat.

(** A float literal of the notebook or of an example, by its text. *)
Definition f64 (s : string) : float :=
  match PyFloat.float_of_string s with
  | Some v => v
  | None => Float64.nan
  end.

Definition str_of_int (n : Z) : string := NilZero.string_of_int (Z.to_int n).

(** ** Exceptions, console and remote store *)

(** An exception, with the text that [str(e)] gives for it.  For a
    [KeyError] that text is the [repr] of the missing key:
    [str(KeyError('label'))] is ['label'], quotes included. *)
Inductive exn : Type :=
  | ValueError (text : string)
  | KeyError (text : string)
  | EOFError
  | FileNotFoundError (text : string)
  | Exception (text : string).

Definition exn_str (e : exn) : string :=
  match e with
  | ValueError m | KeyError m | FileNotFoundError m | Exception m => m
  | EOFError => "EOF when reading a line"
  end.

Inductive outcome (A : Type) : Type :=
  | Ok (a : A)
  | Raise (e : exn).
Arguments Ok {A} a.
Arguments Raise {A} e.

(** What the process does that the outside can see, in order. *)
Inductive event : Type :=
  | Prompt (text : string)
  | Print (line : string)
  | FirebaseGet (url path : string)
  | FirebasePut (url path name data : string).

Definition is_prompt (e : event) : bool :=
  match e with Prompt _ => true | _ => false end.

(** ** get_valid_input

<<
    def get_valid_input(prompt, min_val, max_val):
        while True:
            try:
                value = float(input(prompt))
                if min_val <= value <= max_val:
                    return value
                else:
                    print(f"Please enter a value between {min_val} and {max_val}.")
            except ValueError:
                print("Invalid input. Please enter a numeric value.")
>>
    The bounds are Python ints at every call.  The keyboard is the list of
    lines still to be read; [input] on an exhausted keyboard raises
    [EOFError], which the [except ValueError] clause lets through.  Each
    turn of the loop consumes one line, so the loop is a recursion on the
    lines. *)

Definition in_range (min_val max_val : Z) (value : float) : bool :=
  Float64.Z_le min_val value && Float64.le_Z value max_val.

Definition range_message (min_val max_val : Z) : string :=
  "Please enter a value between " ++ str_of_int min_val ++ " and "
    ++ str_of_int max_val ++ ".".

Definition numeric_message : string :=
  "Invalid input. Please enter a numeric value.".

Fixpoint get_valid_input (prompt : string) (min_val max_val : Z)
    (lines : list string) : outcome float * list event * list string :=
  match lines with
  | [] => (Raise EOFError, [Prompt prompt], [])
  | line :: rest =>
      match PyFloat.float_of_string line with
      | Some value =>
          if in_range min_val max_val value then
            (Ok value, [Prompt prompt], rest)
          else
            let '(r, evs, rest') :=
              get_valid_input prompt min_val max_val rest in
            (r, Prompt prompt :: Print (range_message min_val max_val) :: evs,
             rest')
      | None =>
          let '(r, evs, rest') :=
            get_valid_input prompt min_val max_val rest in
          (r, Prompt prompt :: Print numeric_message :: evs, rest')
      end
  end.

(** A line the loop returns on, and the value it returns. *)
Definition accepted (min_val max_val : Z) (line : string) : option float :=
  match PyFloat.float_of_string line with
  | Some value => if in_range min_val max_val value then Some value else None
  | None => None
  end.

(** What the loop prints for a line it does not return on. *)
Definition rejection (min_val max_val : Z) (line : string) : string :=
  match PyFloat.float_of_string line with
  | Some _ => range_message min_val max_val
  | None => numeric_message
  end.

(** ** LabelEncoder *)

Module LabelEncoder.

(** Modelled from the spec: [LabelEncoder] is scikit-learn's class, which is
    not part of the notebook.  Section 4.1: [fit] gives each distinct label
    a unique code, in ascending lexical order of the distinct labels;
    [encode] returns the code or fails with [UnknownLabel]; [decode] is the
    inverse and fails with [InvalidCode] for a code out of range. *)
Inductive error : Type :=
  | UnknownLabel (label : string)
  | InvalidCode (code : nat).

(** The fitted encoding is the sorted list of the distinct labels
    ([classes_]); the code of a label is its position. *)
Definition encoding : Type := list string.

Fixpoint insert (x : string) (cs : list string) : list string :=
  match cs with
  | [] => [x]
  | y :: r =>
      match String.compare x y with
      | Lt => x :: cs
      | Eq => cs
      | Gt => y :: insert x r
      end
  end.

Definition fit (labels : list string) : encoding :=
  fold_right insert [] labels.

Fixpoint index (cs : list string) (label : string) : option nat :=
  match cs with
  | [] => None
  | c :: r =>
      if String.eqb c label then Some O
      else option_map S (index r label)
  end.

Definition encode (le : encoding) (label : string) : error + nat :=
  match index le label with
  | Some c => inr c
  | None => inl (UnknownLabel label)
  end.

Definition decode (le : encoding) (code : nat) : error + string :=
  match nth_error le code with
  | Some l => inr l
  | None => inl (InvalidCode code)
  end.

(** [le.fit_transform(labels)]: the encoding and the code of every label. *)
Definition fit_transform (labels : list string) : encoding * list nat :=
  let le := fit labels in
  (le, flat_map (fun l => match encode le l with
                          | inr c => [c]
                          | inl _ => []
                          end) labels).

(** [le.inverse_transform(codes)] *)
Fixpoint inverse_transform (le : encoding) (codes : list nat)
  : error + list string :=
  match codes with
  | [] => inr []
  | c :: r =>
      match decode le c, inverse_transform le r with
      | inr l, inr ls => inr (l :: ls)
      | inl e, _ => inl e
      | _, inl e => inl e
      end
  end.

(** In the notebook both failures surface as a [ValueError]. *)
Definition to_exn (e : error) : exn :=
  match e with
  | UnknownLabel _ | InvalidCode _ =>
      ValueError "y contains previously unseen labels"
  end.

End LabelEncoder.

(** ** train_test_split *)

Module Splitter.

(** Python's [round]: to the nearest integer, ties to the even one. *)
Definition round_half_even (q : Q) : Z :=
  let f := Qfloor q in
  match Qcompare (q - inject_Z f)%Q (1 # 2)%Q with
  | Lt => f
  | Gt => f + 1
  | Eq => if Z.even f then f else f + 1
  end.

Definition test_count (ratio : Q) (N : nat) : nat :=
  Z.to_nat (round_half_even (ratio * inject_Z (Z.of_nat N))%Q).

(** The rows of [l] at the given positions, in that order. *)
Definition rows_at {A : Type} (idx : list nat) (l : list A) : list A :=
  flat_map (fun i => match nth_error l i with
                     | Some r => [r]
                     | None => []
                     end) idx.

Section Split.

(** The seeded pseudorandom permutation of [0 .. N-1] is numpy's generator;
    it is a parameter here. *)
Variable shuffle : Z -> nat -> list nat.

(** Modelled from the spec: [train_test_split] is scikit-learn's function,
    which is not part of the notebook.  Section 4.2: the partition is
    computed via a seeded deterministic pseudorandom permutation of the row
    indices; the first [round(ratio * N)] permuted indices go to the test
    set and the remainder to the train set.  Returns (train, test). *)
Definition split_indices (N : nat) (ratio : Q) (seed : Z)
  : list nat * list nat :=
  let perm := shuffle seed N in
  let k := test_count ratio N in
  (skipn k perm, firstn k perm).

(** [train_test_split(X, y, test_size=ratio, random_state=seed)] *)
Definition train_test_split {A B : Type} (X : list A) (y : list B)
    (ratio : Q) (seed : Z) : list A * list A * list B * list B :=
  let '(train, test) := split_indices (List.length X) ratio seed in
  (rows_at train X, rows_at test X, rows_at train y, rows_at test y).

End Split.

End Splitter.

(** ** StandardScaler *)

Module StandardScaler.

(** Modelled from the spec: [StandardScaler] is scikit-learn's class, which
    is not part of the notebook.  Section 4.3: [fit] computes the
    column-wise mean and population standard deviation; [transform]
    returns [(x - mean) / stddev] per feature and fails when the feature
    count differs from the fitted one.  Section 3: a feature with zero
    variance is treated as already centred (its divisor is one). *)
Record stats : Type := { mean_ : list float; scale_ : list float }.

Definition zero : float := S754_zero false.
Definition one : float := Float64.of_Z 1.

Definition total (xs : list float) : float := fold_left Float64.add xs zero.

Definition mean (xs : list float) : float :=
  Float64.div (total xs) (Float64.of_Z (Z.of_nat (List.length xs))).

Definition stddev (xs : list float) : float :=
  let m := mean xs in
  Float64.sqrt
    (mean (map (fun x => let d := Float64.sub x m in Float64.mul d d) xs)).

Definition scale (xs : list float) : float :=
  let s := stddev xs in
  match s with
  | S754_zero _ => one
  | _ => s
  end.

Definition column (j : nat) (rows : list (list float)) : list float :=
  map (fun r => nth j r Float64.nan) rows.

Definition n_features (rows : list (list float)) : nat :=
  match rows with
  | r :: _ => List.length r
  | [] => O
  end.

Definition fit (rows : list (list float)) : stats :=
  let cols := map (fun j => column j rows) (seq 0 (n_features rows)) in
  {| mean_ := map mean cols; scale_ := map scale cols |}.

Fixpoint scale_row (ms ss xs : list float) : list float :=
  match ms, ss, xs with
  | m :: ms', s :: ss', x :: xs' =>
      Float64.div (Float64.sub x m) s :: scale_row ms' ss' xs'
  | _, _, _ => []
  end.

Definition transform (st : stats) (rows : list (list float))
  : outcome (list (list float)) :=
  if forallb (fun r => Nat.eqb (List.length r) (List.length (mean_ st))) rows
  then Ok (map (scale_row (mean_ st) (scale_ st)) rows)
  else Raise (ValueError "X has a different number of features than the fitted scaler").

End StandardScaler.

(** ** Evaluator *)

Module Evaluator.

(** Modelled from the spec: [classification_report] and [accuracy_score]
    are scikit-learn's functions, which are not part of the notebook.
    Section 4.5: precision = TP / (TP + FP), recall = TP / (TP + FN), each 0
    when its denominator is 0; f1 = 2 p r / (p + r), 0 when both are 0;
    support = number of true instances of the class; accuracy = correct /
    total. *)
Record confusion : Type := { TP : nat; FP : nat; FN : nat; TN : nat }.

Definition tally (c : nat) (m : confusion) (truth pred : nat) : confusion :=
  match Nat.eqb truth c, Nat.eqb pred c with
  | true, true => {| TP := S (TP m); FP := FP m; FN := FN m; TN := TN m |}
  | false, true => {| TP := TP m; FP := S (FP m); FN := FN m; TN := TN m |}
  | true, false => {| TP := TP m; FP := FP m; FN := S (FN m); TN := TN m |}
  | false, false => {| TP := TP m; FP := FP m; FN := FN m; TN := S (TN m) |}
  end.

(** The one-against-rest confusion counts of class [c]. *)
Definition confusion_of (c : nat) (y_true y_pred : list nat) : confusion :=
  fold_left (fun m tp => tally c m (fst tp) (snd tp))
    (combine y_true y_pred) {| TP := 0; FP := 0; FN := 0; TN := 0 |}.

Definition ratio (a b : nat) : Q :=
  match b with
  | O => 0%Q
  | S _ => Qmake (Z.of_nat a) (Pos.of_nat b)
  end.

Definition precision (m : confusion) : Q := ratio (TP m) (TP m + FP m).
Definition recall (m : confusion) : Q := ratio (TP m) (TP m + FN m).

Definition f1 (m : confusion) : Q :=
  let p := precision m in
  let r := recall m in
  if Qeq_bool (p + r) 0 then 0%Q else ((2 # 1) * p * r / (p + r))%Q.

Definition support (m : confusion) : nat := (TP m + FN m)%nat.

Record class_metrics : Type :=
  { cm_precision : Q; cm_recall : Q; cm_f1 : Q; cm_support : nat }.

Definition metrics (m : confusion) : class_metrics :=
  {| cm_precision := precision m; cm_recall := recall m;
     cm_f1 := f1 m; cm_support := support m |}.

Definition correct (y_true y_pred : list nat) : nat :=
  List.length (filter (fun tp => Nat.eqb (fst tp) (snd tp))
                 (combine y_true y_pred)).

Definition accuracy (y_true y_pred : list nat) : Q :=
  ratio (correct y_true y_pred) (List.length y_true).

(** One line of the report per class, labelled by the decoded name. *)
Definition evaluate (y_true y_pred : list nat) (names : list string)
  : list (string * class_metrics) :=
  map (fun cn => (snd cn, metrics (confusion_of (fst cn) y_true y_pred)))
    (combine (seq 0 (List.length names)) names).

End Evaluator.

(** ** The loaded table *)

(** [pd.read_csv] yields the numeric columns, in file order, and the column
    of crop names called [label] (absent when the file has none). *)
Record DataFrame : Type :=
  { numeric_columns : list (string * list float);
    label : option (list string) }.

(** The header the notebook prints for [cpdata1.csv]:
<<
       temperature   humidity        ph    rainfall label
>> *)
Definition cpdata1_columns : list string :=
  ["temperature"; "humidity"; "ph"; "rainfall"].

(** [data.drop(columns=['label', 'label_encoded'])]: the remaining columns,
    in file order. *)
Definition feature_columns (data : DataFrame) : list (string * list float) :=
  filter (fun c => negb (String.eqb (fst c) "label"
                         || String.eqb (fst c) "label_encoded"))
    (numeric_columns data).

Definition feature_names (data : DataFrame) : list string :=
  map fst (feature_columns data).

(** The feature matrix, one row per sample. *)
Definition feature_rows (data : DataFrame) (n : nat) : list (list float) :=
  map (fun i => map (fun c => nth i (snd c) Float64.nan) (feature_columns data))
    (seq 0 n).

(** ** Collaborators *)

(** The library calls whose result the notebook only passes on. *)
Record library : Type :=
  { shuffle : Z -> nat -> list nat;
    tree : Type;
    tree_fit : list (list float) -> list nat -> tree;
    tree_predict : tree -> list float -> nat;
    classification_report :
      list nat -> list nat -> list string -> outcome string;
    format_percent : Q -> string;
    render_head : DataFrame -> string }.

(** The file system and the remote store.  [firebase_get] answers [None]
    for an absent path; both remote calls may fail. *)
Record environment : Type :=
  { read_csv : string -> outcome DataFrame;
    firebase_get : string -> string -> outcome (option string);
    firebase_put : string -> string -> string -> string -> outcome unit }.

(** The keyboard lines still unread and the events so far. *)
Record console : Type := { stdin : list string; trace : list event }.

Definition emit (e : event) (s : console) : console :=
  {| stdin := stdin s; trace := trace s ++ [e] |}.

(** ** A state-and-exception monad *)

Definition M (A : Type) : Type := console -> outcome A * console.

Definition ret {A : Type} (a : A) : M A := fun s => (Ok a, s).

Definition bind {A B : Type} (c : M A) (k : A -> M B) : M B :=
  fun s =>
    match c s with
    | (Ok a, s') => k a s'
    | (Raise e, s') => (Raise e, s')
    end.

Definition lift {A : Type} (r : outcome A) : M A := fun s => (r, s).

Definition print (line : string) : M unit :=
  fun s => (Ok tt, emit (Print line) s).

(** [try: body  except Exception as e: handler(e)] *)
Definition try_except {A : Type} (body : M A) (handler : exn -> M A) : M A :=
  fun s =>
    match body s with
    | (Ok a, s') => (Ok a, s')
    | (Raise e, s') => handler e s'
    end.

Fixpoint mapM {A B : Type} (f : A -> M B) (l : list A) : M (list B) :=
  match l with
  | [] => ret []
  | a :: r => bind (f a) (fun b => bind (mapM f r) (fun bs => ret (b :: bs)))
  end.

Declare Scope monad_scope.
Delimit Scope monad_scope with monad.
Notation "x <- c ;; k" := (bind c (fun x => k))
  (at level 61, c at next level, right associativity) : monad_scope.
Notation "' pat <- c ;; k" := (bind c (fun x => match x with pat => k end))
  (at level 61, pat pattern, c at next level, right associativity)
  : monad_scope.
Notation "c ;; k" := (bind c (fun _ => k))
  (at level 61, right associativity) : monad_scope.

(** [get_valid_input] on the console. *)
Definition input_valid (prompt : string) (min_val max_val : Z) : M float :=
  fun s =>
    let '(r, evs, rest) := get_valid_input prompt min_val max_val (stdin s) in
    (r, {| stdin := rest; trace := trace s ++ evs |}).

(** The degree sign of the temperature prompt: the two bytes of its UTF-8
    encoding. *)
Definition degree_sign : string :=
  String (ascii_of_nat 194) (String (ascii_of_nat 176) EmptyString).

(** ** The notebook's pipeline *)

Section Pipeline.

Variable lib : library.
Variable env : environment.

Local Open Scope monad_scope.

Definition remote_get (url path : string) : M (option string) :=
  fun s => (firebase_get env url path, emit (FirebaseGet url path) s).

Definition remote_put (url path name data : string) : M unit :=
  fun s => (firebase_put env url path name data,
            emit (FirebasePut url path name data) s).

Definition getitem_label (data : DataFrame) : outcome (list string) :=
  match label data with
  | Some ls => Ok ls
  | None => Raise (KeyError "'label'")
  end.

Definition preprocessed : Type :=
  list (list float) * list (list float) * list nat * list nat
  * LabelEncoder.encoding * StandardScaler.stats.

(** The rows of the table with their codes, split as the notebook does:
    [train_test_split(X, y, test_size=0.3, random_state=42)]. *)
Definition split_data (data : DataFrame) (labels : list string)
  : list (list float) * list (list float) * list nat * list nat
    * LabelEncoder.encoding :=
  let '(le, y) := LabelEncoder.fit_transform labels in
  let X := feature_rows data (List.length labels) in
  let '(X_train, X_test, y_train, y_test) :=
    Splitter.train_test_split (shuffle lib) X y (3 # 10)%Q 42 in
  (X_train, X_test, y_train, y_test, le).

(**
<<
    def preprocess_data(filepath):
        data = pd.read_csv(filepath)
        print("First row of data:")
        print(data.head(1))
        le = LabelEncoder()
        data['label_encoded'] = le.fit_transform(data['label'])
        y = data['label_encoded']
        X = data.drop(columns=['label', 'label_encoded'])
        X_train, X_test, y_train, y_test = train_test_split(X, y, test_size=0.3, random_state=42)
        scaler = StandardScaler()
        X_train = scaler.fit_transform(X_train)
        X_test = scaler.transform(X_test)
        return X_train, X_test, y_train, y_test, le, scaler
>> *)
Definition preprocess_data (filepath : string) : M preprocessed :=
  data <- lift (read_csv env filepath) ;;
  print "First row of data:" ;;
  print (render_head lib data) ;;
  labels <- lift (getitem_label data) ;;
  let '(X_train, X_test, y_train, y_test, le) := split_data data labels in
  let scaler := StandardScaler.fit X_train in
  X_train' <- lift (StandardScaler.transform scaler X_train) ;;
  X_test' <- lift (StandardScaler.transform scaler X_test) ;;
  ret (X_train', X_test', y_train, y_test, le, scaler).

(**
<<
    def train_and_evaluate_model(X_train, X_test, y_train, y_test, le):
        clf = DecisionTreeClassifier()
        clf.fit(X_train, y_train)
        y_pred = clf.predict(X_test)
        print("Classification Report:")
        print(classification_report(y_test, y_pred, target_names=le.classes_))
        accuracy = accuracy_score(y_test, y_pred)
        print(f"Model Accuracy: {accuracy * 100:.2f}%")
        return clf
>> *)
Definition train_and_evaluate_model (X_train X_test : list (list float))
    (y_train y_test : list nat) (le : LabelEncoder.encoding)
  : M (tree lib) :=
  let clf := tree_fit lib X_train y_train in
  let y_pred := map (tree_predict lib clf) X_test in
  print "Classification Report:" ;;
  report <- lift (classification_report lib y_test y_pred le) ;;
  print report ;;
  let accuracy := Evaluator.accuracy y_test y_pred in
  print ("Model Accuracy: "
         ++ format_percent lib (accuracy * (100 # 1))%Q ++ "%")%string ;;
  ret clf.

(** The dict [input_ranges]; a Python dict iterates in insertion order. *)
Definition input_ranges : list (string * (Z * Z)) :=
  [ ("Air Humidity (%)", (10, 90));
    (("Air Temperature (" ++ degree_sign ++ "C)")%string, (10, 45));
    ("Soil pH", (4, 9));
    ("Rainfall (mm)", (0, 300)) ].

(** [[get_valid_input(f"Enter {key}: ", *range_)
      for key, range_ in input_ranges.items()]] *)
Definition gather_inputs : M (list float) :=
  mapM (fun kr => input_valid ("Enter " ++ fst kr ++ ": ")%string
                    (fst (snd kr)) (snd (snd kr)))
    input_ranges.

Definition first_crop (crops : list string) : outcome string :=
  match crops with
  | c :: _ => Ok c
  | [] => Raise (Exception "index 0 is out of bounds")
  end.

Definition decode_all (le : LabelEncoder.encoding) (codes : list nat)
  : outcome (list string) :=
  match LabelEncoder.inverse_transform le codes with
  | inr ls => Ok ls
  | inl e => Raise (LabelEncoder.to_exn e)
  end.

(** The local part of a prediction: scale, predict, decode. *)
Definition predict_crop (clf : tree lib) (scaler : StandardScaler.stats)
    (le : LabelEncoder.encoding) (inputs : list float) : outcome string :=
  match StandardScaler.transform scaler [inputs] with
  | Ok predict_input_scaled =>
      let predicted_label_encoded :=
        map (tree_predict lib clf) predict_input_scaled in
      match decode_all le predicted_label_encoded with
      | Ok crops => first_crop crops
      | Raise e => Raise e
      end
  | Raise e => Raise e
  end.

(** The remote part: publish, and report either way. *)
Definition send_to_firebase (firebase_url predicted_crop : string) : M unit :=
  try_except
    (remote_put firebase_url "/croppredicted" "crop" predicted_crop ;;
     print "Prediction successfully sent to Firebase!")
    (fun e => print ("Error sending data to Firebase: " ++ exn_str e)%string).

(**
<<
    def predict_and_send_to_firebase(clf, scaler, le, firebase_url):
        input_ranges = { ... }
        inputs = [get_valid_input(f"Enter {key}: ", *range_) for key, range_ in input_ranges.items()]
        predict_input_scaled = scaler.transform([inputs])
        predicted_label_encoded = clf.predict(predict_input_scaled)
        predicted_crop = le.inverse_transform(predicted_label_encoded)[0]
        print(f"The predicted crop is: {predicted_crop}")
        try:
            firebase_connection = firebase.FirebaseApplication(firebase_url)
            firebase_connection.put('/croppredicted', 'crop', predicted_crop)
            print("Prediction successfully sent to Firebase!")
        except Exception as e:
            print(f"Error sending data to Firebase: {e}")
>> *)
Definition predict_and_send_to_firebase (clf : tree lib)
    (scaler : StandardScaler.stats) (le : LabelEncoder.encoding)
    (firebase_url : string) : M unit :=
  inputs <- gather_inputs ;;
  predicted_crop <- lift (predict_crop clf scaler le inputs) ;;
  print ("The predicted crop is: " ++ predicted_crop)%string ;;
  send_to_firebase firebase_url predicted_crop.

Definition filepath : string := "cpdata1.csv".
Definition firebase_url : string := "https://cropit-eb156.firebaseio.com/".

(**
<<
    def main():
        X_train, X_test, y_train, y_test, le, scaler = preprocess_data(filepath)
        clf = train_and_evaluate_model(X_train, X_test, y_train, y_test, le)
        firebase_connection = firebase.FirebaseApplication(firebase_url)
        tp = firebase_connection.get('/Realtime', None)
        if tp is not None:
            predict_and_send_to_firebase(clf, scaler, le, firebase_url)
        else:
            print("Failed to retrieve data from Firebase.")
>> *)
Definition main : M unit :=
  ' (X_train, X_test, y_train, y_test, le, scaler)
      <- preprocess_data filepath ;;
  clf <- train_and_evaluate_model X_train X_test y_train y_test le ;;
  tp <- remote_get firebase_url "/Realtime" ;;
  match tp with
  | Some _ => predict_and_send_to_firebase clf scaler le firebase_url
  | None => print "Failed to retrieve data from Firebase."
  end.

(** Everything [main] does before it asks the remote store, as one
    computation (used to state properties of [main]). *)
Definition prepare : M (tree lib * StandardScaler.stats * LabelEncoder.encoding) :=
  ' (X_train, X_test, y_train, y_test, le, scaler)
      <- preprocess_data filepath ;;
  clf <- train_and_evaluate_model X_train X_test y_train y_test le ;;
  ret (clf, scaler, le).

End Pipeline.

(** * Vocabulary of the statements *)

Definition within (lo hi : Z) (v : float) : Prop :=
  exists q : Q,
    Float64.to_Q v = Some q /\ (inject_Z lo <= q)%Q /\ (q <= inject_Z hi)%Q.

(** The turns spent on the lines that were not returned. *)
Definition retries (prompt : string) (lo hi : Z) (pre : list string)
  : list event :=
  flat_map (fun l => [Prompt prompt; Print (rejection lo hi l)]) pre.

(** A shuffle that depends on the seed: rotate the indices by [seed mod N]. *)
Definition rotate (seed : Z) (N : nat) : list nat :=
  let k := Z.to_nat (seed mod Z.of_nat (S N)) in
  skipn k (seq 0 N) ++ firstn k (seq 0 N).

(** Twenty test samples of a two-class problem (class 0 is "A") with eight
    hits, two false alarms, one miss and nine correct rejections. *)
Definition worked_y_true : list nat :=
  repeat 0%nat 8 ++ repeat 1%nat 2 ++ repeat 0%nat 1 ++ repeat 1%nat 9.
Definition worked_y_pred : list nat :=
  repeat 0%nat 8 ++ repeat 0%nat 2 ++ repeat 1%nat 1 ++ repeat 1%nat 9.

(** No prompt among the events. *)
Definition no_prompt (out : list event) : Prop :=
  forallb (fun e => negb (is_prompt e)) out = true.

(** From [s] to [s'] nothing was read from the keyboard and nothing was
    asked. *)
Definition quiet (s s' : console) : Prop :=
  stdin s' = stdin s
  /\ exists out, trace s' = trace s ++ out /\ no_prompt out.

Definition silent {A : Type} (c : M A) : Prop :=
  forall s, quiet s (snd (c s)).

(** The comprehension over [input_ranges], written out. *)
Definition four_inputs : M (list float) :=
  (h <- input_valid "Enter Air Humidity (%): " 10 90 ;;
   t <- input_valid ("Enter Air Temperature (" ++ degree_sign ++ "C): ")
          10 45 ;;
   p <- input_valid "Enter Soil pH: " 4 9 ;;
   r <- input_valid "Enter Rainfall (mm): " 0 300 ;;
   ret [h; t; p; r])%monad.

(** The unscaled training rows of a table. *)
Definition train_rows (lib : library) (data : DataFrame)
    (labels : list string) : list (list float) :=
  let '(X_train, _, _, _, _) := split_data lib data labels in X_train.

Definition test_rows (lib : library) (data : DataFrame)
    (labels : list string) : list (list float) :=
  let '(_, X_test, _, _, _) := split_data lib data labels in X_test.

(** The unscaled training rows of the table behind a path. *)
Definition loaded_train_rows (lib : library) (env : environment)
    (path : string) : option (list (list float)) :=
  match read_csv env path with
  | Ok data =>
      match label data with
      | Some labels => Some (train_rows lib data labels)
      | None => None
      end
  | Raise _ => None
  end.

(** A majority-of-one classifier stands in for the decision tree: it
    answers the code of the first training row. *)
Definition demo_lib : library :=
  {| shuffle := rotate;
     tree := nat;
     tree_fit := fun _ y => hd O y;
     tree_predict := fun t _ => t;
     classification_report := fun _ _ _ => Ok "(report)";
     format_percent := fun _ => "100.00";
     render_head := fun _ => "(first row)" |}.

(** Four samples under the header of [cpdata1.csv]; [t2] is the temperature
    of the third sample, the one the split sends to the test set. *)
Definition demo_table (t2 : string) : DataFrame :=
  {| numeric_columns :=
       [ ("temperature", [f64 "20.8"; f64 "21.7"; f64 t2; f64 "26.4"]);
         ("humidity", [f64 "82.0"; f64 "80.3"; f64 "60.1"; f64 "55.2"]);
         ("ph", [f64 "6.5"; f64 "7.0"; f64 "6.1"; f64 "5.9"]);
         ("rainfall", [f64 "202.9"; f64 "226.6"; f64 "80.5"; f64 "95.0"]) ];
     label := Some ["rice"; "rice"; "wheat"; "wheat"] |}.

Definition demo_labels : list string := ["rice"; "rice"; "wheat"; "wheat"].

Definition demo_env (t2 : string) (put : outcome unit) : environment :=
  {| read_csv := fun path =>
       if String.eqb path "cpdata1.csv" then Ok (demo_table t2)
       else Raise (FileNotFoundError path);
     firebase_get := fun _ _ => Ok (Some "1");
     firebase_put := fun _ _ _ _ => put |}.

Definition demo_scaler : StandardScaler.stats :=
  StandardScaler.fit (train_rows demo_lib (demo_table "23.0") demo_labels).

Definition demo_console : console :=
  {| stdin := ["80"; "20"; "6.5"; "200"]; trace := [] |}.

Inductive quantity : Type := Temperature | Humidity | SoilPH | Rainfall.

(** What a column of the table measures. *)
Definition column_quantity (name : string) : option quantity :=
  if String.eqb name "temperature" then Some Temperature
  else if String.eqb name "humidity" then Some Humidity
  else if String.eqb name "ph" then Some SoilPH
  else if String.eqb name "rainfall" then Some Rainfall
  else None.

(** What a key of [input_ranges] asks for. *)
Definition prompt_quantity (key : string) : option quantity :=
  if String.eqb key "Air Humidity (%)" then Some Humidity
  else if String.eqb key ("Air Temperature (" ++ degree_sign ++ "C)")
    then Some Temperature
  else if String.eqb key "Soil pH" then Some SoilPH
  else if String.eqb key "Rainfall (mm)" then Some Rainfall
  else None.

(** ** Vocabulary of the further properties *)

Definition is_print (e : event) : bool :=
  match e with Print _ => true | _ => false end.

(** A call to the remote store. *)
Definition is_remote (e : event) : bool :=
  match e with
  | FirebaseGet _ _ | FirebasePut _ _ _ _ => true
  | _ => false
  end.

Definition remote_events (out : list event) : list event :=
  filter is_remote out.

Definition prompt_count (out : list event) : nat :=
  List.length (filter is_prompt out).

(** Whatever [c] adds to the trace satisfies [P]. *)
Definition emits_only (P : event -> bool) {A : Type} (c : M A) : Prop :=
  forall s, exists out,
    trace (snd (c s)) = trace s ++ out /\ forallb P out = true.

(** The codes of the training rows of a table. *)
Definition train_codes (lib : library) (data : DataFrame)
    (labels : list string) : list nat :=
  let '(_, _, y_train, _, _) := split_data lib data labels in y_train.

(** A one-node tree on the first training column, which is the
    temperature: above the training mean is code 1, wheat in the small
    table, otherwise code 0, rice. *)
Definition stump_lib : library :=
  {| shuffle := rotate;
     tree := unit;
     tree_fit := fun _ _ => tt;
     tree_predict := fun _ x =>
       match x with
       | x0 :: _ =>
           if SFltb (S754_zero false) x0 then 1%nat else 0%nat
       | [] => 0%nat
       end;
     classification_report := fun _ _ _ => Ok "(report)";
     format_percent := fun _ => "100.00";
     render_head := fun _ => "(first row)" |}.

(** The label column of the table behind a path. *)
Definition loaded_labels (env : environment) (path : string)
  : option (list string) :=
  match read_csv env path with
  | Ok data => label data
  | Raise _ => None
  end.

(** A table without the [label] column. *)
Definition unlabelled_table : DataFrame :=
  {| numeric_columns := numeric_columns (demo_table "23.0"); label := None |}.

(** An environment whose file is missing, and one whose file has no
    [label] column. *)
Definition missing_file_env : environment :=
  {| read_csv := fun path => Raise (FileNotFoundError path);
     firebase_get := fun _ _ => Ok (Some "1");
     firebase_put := fun _ _ _ _ => Ok tt |}.

Definition unlabelled_env : environment :=
  {| read_csv := fun _ => Ok unlabelled_table;
     firebase_get := fun _ _ => Ok (Some "1");
     firebase_put := fun _ _ _ _ => Ok tt |}.

(** * Properties *)

(** ** Range check *)

Lemma pow2_to_pos (k : Z) : 0 <= k -> Z.pos (Z.to_pos (2 ^ k)) = 2 ^ k.
Proof.
  intros Hk. apply Z2Pos.id. apply Z.pow_pos_nonneg; lia.
Qed.

Lemma Z_le_sound (n : Z) (v : float) (q : Q) :
  Float64.Z_le n v = true -> Float64.to_Q v = Some q -> (inject_Z n <= q)%Q.
Proof.
  unfold Float64.Z_le, Float64.to_Q, Float64.compare_Z.
  destruct v as [s | s | | s m e]; try discriminate.
  - intros H [= <-]. rewrite <- Zle_Qle.
    destruct (Z.compare_spec n 0); try discriminate; lia.
  - destruct (0 <=? e) eqn:He; intros H [= <-].
    + rewrite <- Zle_Qle.
      destruct (Z.compare_spec n (cond_Zopp s (Z.pos m) * 2 ^ e));
        try discriminate; lia.
    + apply Z.leb_gt in He.
      unfold Qle. cbn [Qnum Qden inject_Z].
      rewrite pow2_to_pos by lia.
      destruct (Z.compare_spec (n * 2 ^ (- e)) (cond_Zopp s (Z.pos m)));
        try discriminate; lia.
Qed.

Lemma le_Z_sound (n : Z) (v : float) (q : Q) :
  Float64.le_Z v n = true -> Float64.to_Q v = Some q -> (q <= inject_Z n)%Q.
Proof.
  unfold Float64.le_Z, Float64.to_Q, Float64.compare_Z.
  destruct v as [s | s | | s m e]; try discriminate.
  - intros H [= <-]. rewrite <- Zle_Qle.
    destruct (Z.compare_spec n 0); try discriminate; lia.
  - destruct (0 <=? e) eqn:He; intros H [= <-].
    + rewrite <- Zle_Qle.
      destruct (Z.compare_spec n (cond_Zopp s (Z.pos m) * 2 ^ e));
        try discriminate; lia.
    + apply Z.leb_gt in He.
      unfold Qle. cbn [Qnum Qden inject_Z].
      rewrite pow2_to_pos by lia.
      destruct (Z.compare_spec (n * 2 ^ (- e)) (cond_Zopp s (Z.pos m)));
        try discriminate; lia.
Qed.

Lemma in_range_finite (lo hi : Z) (v : float) :
  in_range lo hi v = true -> Float64.is_finite v = true.
Proof.
  unfold in_range, Float64.Z_le, Float64.le_Z.
  destruct v as [s | [|] | | s m e]; cbn; intros H; try reflexivity;
    discriminate.
Qed.

Lemma in_range_within (lo hi : Z) (v : float) :
  in_range lo hi v = true -> within lo hi v.
Proof.
  intros H. pose proof (in_range_finite _ _ _ H) as Hf.
  unfold in_range in H. apply andb_prop in H as [Hlo Hhi].
  destruct (Float64.to_Q v) as [q |] eqn:Hq.
  - exists q. split; [assumption | split].
    + now apply Z_le_sound with v.
    + now apply le_Z_sound with v.
  - destruct v; discriminate.
Qed.

Lemma in_range_not_finite (lo hi : Z) (v : float) :
  Float64.is_finite v = false -> in_range lo hi v = false.
Proof.
  intros Hv. destruct (in_range lo hi v) eqn:H; [| reflexivity].
  apply in_range_finite in H. congruence.
Qed.

(** ** get_valid_input *)

Lemma get_valid_input_reject (prompt : string) (lo hi : Z)
    (line : string) (rest : list string) :
  accepted lo hi line = None ->
  get_valid_input prompt lo hi (line :: rest) =
    let '(r, evs, rest') := get_valid_input prompt lo hi rest in
    (r, Prompt prompt :: Print (rejection lo hi line) :: evs, rest').
Proof.
  unfold accepted, rejection. cbn [get_valid_input].
  destruct (PyFloat.float_of_string line) as [v |]; [| reflexivity].
  destruct (in_range lo hi v); [discriminate | reflexivity].
Qed.

Lemma get_valid_input_accept (prompt : string) (lo hi : Z)
    (line : string) (v : float) (rest : list string) :
  accepted lo hi line = Some v ->
  get_valid_input prompt lo hi (line :: rest) = (Ok v, [Prompt prompt], rest).
Proof.
  unfold accepted. cbn [get_valid_input].
  destruct (PyFloat.float_of_string line) as [u |]; [| discriminate].
  destruct (in_range lo hi u); [| discriminate].
  now intros [= ->].
Qed.

Lemma accepted_in_range (lo hi : Z) (line : string) (v : float) :
  accepted lo hi line = Some v ->
  PyFloat.float_of_string line = Some v /\ in_range lo hi v = true.
Proof.
  unfold accepted.
  destruct (PyFloat.float_of_string line) as [u |]; [| discriminate].
  destruct (in_range lo hi u) eqn:H; [| discriminate].
  intros [= ->]. now split.
Qed.

(** X1.  On a keyboard without a valid line the loop spends one turn per
    line (prompt, then message) and ends with [EOFError] at the next
    prompt: the [except ValueError] clause does not catch the end of the
    input. *)
Lemma get_valid_input_exhausted (prompt : string) (lo hi : Z)
    (lines : list string) :
  Forall (fun l => accepted lo hi l = None) lines ->
  get_valid_input prompt lo hi lines =
    (Raise EOFError, retries prompt lo hi lines ++ [Prompt prompt], []).
Proof.
  induction 1 as [| l lines Hl _ IH]; [reflexivity |].
  rewrite (get_valid_input_reject _ _ _ _ _ Hl), IH. reflexivity.
Qed.

(** C6.  [get_valid_input] returns the first line of the keyboard that
    parses as a float and lies within the bounds.  Every earlier line costs
    one prompt and one message (the range message when it parsed, the
    numeric message when it did not), and the loop goes on to the next
    line; the lines after the returned one stay unread. *)
Theorem get_valid_input_returns_first_valid :
  forall (prompt : string) (lo hi : Z) (pre : list string) (line : string)
         (value : float) (post : list string),
    Forall (fun l => forall u, PyFloat.float_of_string l = Some u ->
                               in_range lo hi u = false) pre ->
    PyFloat.float_of_string line = Some value ->
    in_range lo hi value = true ->
    get_valid_input prompt lo hi (pre ++ line :: post) =
      (Ok value, retries prompt lo hi pre ++ [Prompt prompt], post).
Proof.
  intros prompt lo hi pre line value post Hpre Hparse Hrange.
  induction Hpre as [| l pre Hl _ IH]; cbn [app].
  - apply get_valid_input_accept. unfold accepted.
    now rewrite Hparse, Hrange.
  - rewrite get_valid_input_reject.
    + rewrite IH. reflexivity.
    + unfold accepted.
      destruct (PyFloat.float_of_string l) as [u |] eqn:Hu; [| reflexivity].
      now rewrite (Hl u eq_refl).
Qed.

(** The example of the design document: range (10, 90), lines "abc", "150",
    "45". *)
Lemma get_valid_input_abc_150_45 :
  get_valid_input "Enter Air Humidity (%): " 10 90 ["abc"; "150"; "45"] =
    (Ok (f64 "45.0"),
     [Prompt "Enter Air Humidity (%): ";
      Print "Invalid input. Please enter a numeric value.";
      Prompt "Enter Air Humidity (%): ";
      Print "Please enter a value between 10 and 90.";
      Prompt "Enter Air Humidity (%): "],
     [])
  /\ Float64.to_Q (f64 "45.0") = Some (Qmake 6333186975989760 (2 ^ 47))
  /\ (Qmake 6333186975989760 (2 ^ 47) == inject_Z 45)%Q.
Proof.
  split; [| split; reflexivity].
  apply (get_valid_input_returns_first_valid
           "Enter Air Humidity (%): " 10 90 ["abc"; "150"] "45"
           (f64 "45.0") []).
  - repeat constructor; intros u Hu; vm_compute in Hu;
      try discriminate; injection Hu as <-; reflexivity.
  - reflexivity.
  - reflexivity.
Defined.

Lemma get_valid_input_Ok_in_range (prompt : string) (lo hi : Z)
    (lines : list string) (value : float) (evs : list event)
    (rest : list string) :
  get_valid_input prompt lo hi lines = (Ok value, evs, rest) ->
  in_range lo hi value = true.
Proof.
  revert value evs rest.
  induction lines as [| line rest IH]; intros value evs rest' H.
  - discriminate.
  - destruct (accepted lo hi line) as [v |] eqn:Ha.
    + rewrite (get_valid_input_accept _ _ _ _ _ _ Ha) in H.
      injection H as <- _ _. now apply accepted_in_range in Ha.
    + rewrite (get_valid_input_reject _ _ _ _ _ Ha) in H.
      destruct (get_valid_input prompt lo hi rest) as [[r evs0] rest0].
      injection H as -> _ _. now apply (IH value evs0 rest0).
Qed.

(** The loop ends in a value or, on an exhausted keyboard, in [EOFError]. *)
Lemma get_valid_input_Raise (prompt : string) (lo hi : Z)
    (lines : list string) (e : exn) (evs : list event) (rest : list string) :
  get_valid_input prompt lo hi lines = (Raise e, evs, rest) -> e = EOFError.
Proof.
  revert evs rest.
  induction lines as [| line rest IH]; intros evs rest' H.
  - now injection H as <- _ _.
  - destruct (accepted lo hi line) as [v |] eqn:Ha.
    + rewrite (get_valid_input_accept _ _ _ _ _ _ Ha) in H. discriminate.
    + rewrite (get_valid_input_reject _ _ _ _ _ Ha) in H.
      destruct (get_valid_input prompt lo hi rest) as [[r evs0] rest0].
      injection H as -> _ _. now apply (IH evs0 rest0).
Qed.

(** C9.  Whatever [get_valid_input] returns is a finite float whose value
    lies between the two bounds.  The lines "nan", "inf" and "-inf" do parse
    (no [ValueError]), to a value that is not finite and fails the range
    check for any bounds, so each costs a range message and one more turn of
    the loop. *)
Theorem get_valid_input_result_finite_in_range :
  forall (prompt : string) (lo hi : Z) (lines : list string),
    (forall value evs rest,
        get_valid_input prompt lo hi lines = (Ok value, evs, rest) ->
        Float64.is_finite value = true /\ within lo hi value)
    /\
    (forall special, In special ["nan"; "inf"; "-inf"] ->
       exists v,
         PyFloat.float_of_string special = Some v
         /\ Float64.is_finite v = false
         /\ in_range lo hi v = false
         /\ get_valid_input prompt lo hi (special :: lines) =
              let '(r, evs, rest) := get_valid_input prompt lo hi lines in
              (r, Prompt prompt :: Print (range_message lo hi) :: evs, rest)).
Proof.
  intros prompt lo hi lines. split.
  - intros value evs rest H.
    apply get_valid_input_Ok_in_range in H.
    split; [now apply in_range_finite with lo hi | now apply in_range_within].
  - intros special Hin.
    assert (Hv : exists v, PyFloat.float_of_string special = Some v
                           /\ Float64.is_finite v = false).
    { cbn in Hin.
      destruct Hin as [<- | [<- | [<- | []]]]; eexists; split; reflexivity. }
    destruct Hv as (v & Hparse & Hfin).
    exists v. repeat split; try assumption.
    + now apply in_range_not_finite.
    + cbn [get_valid_input]. rewrite Hparse.
      now rewrite (in_range_not_finite lo hi v Hfin).
Qed.

Lemma get_valid_input_nan_inf_then_45 :
  Float64.is_finite (f64 "45") = true /\ within 10 90 (f64 "45").
Proof.
  apply (proj1 (get_valid_input_result_finite_in_range
                  "Enter Air Humidity (%): " 10 90
                  ["nan"; "inf"; "-inf"; "45"])
           (f64 "45")
           [Prompt "Enter Air Humidity (%): ";
            Print "Please enter a value between 10 and 90.";
            Prompt "Enter Air Humidity (%): ";
            Print "Please enter a value between 10 and 90.";
            Prompt "Enter Air Humidity (%): ";
            Print "Please enter a value between 10 and 90.";
            Prompt "Enter Air Humidity (%): "]
           []).
  reflexivity.
Defined.

(** ** LabelEncoder *)

Lemma In_insert (x a : string) (cs : list string) :
  In x (LabelEncoder.insert a cs) <-> x = a \/ In x cs.
Proof.
  induction cs as [| y r IH]; cbn [LabelEncoder.insert].
  - cbn. intuition congruence.
  - destruct (String.compare a y) eqn:C.
    + apply String.compare_eq_iff in C. subst y. cbn. intuition congruence.
    + cbn. intuition congruence.
    + cbn [In]. rewrite IH. intuition congruence.
Qed.

Lemma In_fit (x : string) (labels : list string) :
  In x (LabelEncoder.fit labels) <-> In x labels.
Proof.
  unfold LabelEncoder.fit.
  induction labels as [| a r IH]; cbn [fold_right In].
  - reflexivity.
  - rewrite In_insert, IH. intuition congruence.
Qed.

Lemma index_In (cs : list string) (l : string) :
  In l cs ->
  exists c, LabelEncoder.index cs l = Some c /\ nth_error cs c = Some l.
Proof.
  induction cs as [| y r IH]; [intros [] |]. intros Hin.
  cbn [LabelEncoder.index]. destruct (String.eqb y l) eqn:E.
  - apply String.eqb_eq in E. subst y. now exists O.
  - apply String.eqb_neq in E. destruct Hin as [-> | Hin]; [easy |].
    destruct (IH Hin) as (c & Hc & Hn).
    exists (S c). now rewrite Hc.
Qed.

Lemma index_not_In (cs : list string) (l : string) :
  ~ In l cs -> LabelEncoder.index cs l = None.
Proof.
  induction cs as [| y r IH]; [reflexivity |]. intros Hn.
  cbn [LabelEncoder.index]. destruct (String.eqb y l) eqn:E.
  - apply String.eqb_eq in E. subst y. exfalso. apply Hn. now left.
  - rewrite IH; [reflexivity |]. intros H. apply Hn. now right.
Qed.

(** C2.  For every list of labels given to [fit]: a label of the list has a
    code, and decoding that code gives the label back; a label that is not
    in the list has no code, [encode] fails with [UnknownLabel]. *)
Theorem decode_encode_roundtrip :
  forall (labels : list string) (l : string),
    (In l labels ->
       exists c,
         LabelEncoder.encode (LabelEncoder.fit labels) l = inr c
         /\ LabelEncoder.decode (LabelEncoder.fit labels) c = inr l)
    /\
    (~ In l labels ->
       LabelEncoder.encode (LabelEncoder.fit labels) l
         = inl (LabelEncoder.UnknownLabel l)).
Proof.
  intros labels l. split; intros H.
  - apply In_fit in H. destruct (index_In _ _ H) as (c & Hc & Hn).
    exists c. unfold LabelEncoder.encode, LabelEncoder.decode.
    now rewrite Hc, Hn.
  - unfold LabelEncoder.encode. rewrite index_not_In; [reflexivity |].
    now rewrite In_fit.
Qed.

Lemma decode_encode_crops :
  (exists c,
      LabelEncoder.encode (LabelEncoder.fit ["rice"; "wheat"; "Tea"; "rice"])
        "rice" = inr c
      /\ LabelEncoder.decode (LabelEncoder.fit ["rice"; "wheat"; "Tea"; "rice"])
           c = inr "rice")
  /\ LabelEncoder.encode (LabelEncoder.fit ["rice"; "wheat"; "Tea"; "rice"])
       "maize" = inl (LabelEncoder.UnknownLabel "maize").
Proof.
  split.
  - apply (proj1 (decode_encode_roundtrip
                    ["rice"; "wheat"; "Tea"; "rice"] "rice")).
    cbn. auto.
  - apply (proj2 (decode_encode_roundtrip
                    ["rice"; "wheat"; "Tea"; "rice"] "maize")).
    cbn. intros [H | [H | [H | [H | []]]]]; discriminate H.
Defined.

(** ** train_test_split *)

Lemma round_half_even_bounds (q : Q) (n : Z) :
  (0 <= q)%Q -> (q <= inject_Z n)%Q ->
  0 <= Splitter.round_half_even q <= n.
Proof.
  intros H0 Hn. unfold Splitter.round_half_even.
  assert (Hf0 : 0 <= Qfloor q).
  { change 0 with (Qfloor (inject_Z 0)). now apply Qfloor_resp_le. }
  assert (Hfn : Qfloor q <= n).
  { rewrite <- (Qfloor_Z n). now apply Qfloor_resp_le. }
  destruct (Z.eq_dec (Qfloor q) n) as [E | E].
  - assert (Hq : (q - inject_Z (Qfloor q) == 0)%Q).
    { rewrite E. apply Qle_antisym.
      - apply (Qplus_le_l _ _ (inject_Z n)). ring_simplify. exact Hn.
      - apply (Qplus_le_l _ _ (inject_Z n)). ring_simplify.
        rewrite <- E. apply Qfloor_le. }
    assert (C : ((q - inject_Z (Qfloor q)) ?= (1 # 2))%Q = Lt).
    { rewrite Hq. reflexivity. }
    rewrite C. lia.
  - destruct ((q - inject_Z (Qfloor q)) ?= (1 # 2))%Q;
      try destruct (Z.even (Qfloor q)); lia.
Qed.

Lemma test_count_le (ratio : Q) (N : nat) :
  (0 <= ratio)%Q -> (ratio <= 1)%Q ->
  (Splitter.test_count ratio N <= N)%nat
  /\ Z.of_nat (Splitter.test_count ratio N)
     = Splitter.round_half_even (ratio * inject_Z (Z.of_nat N))%Q.
Proof.
  intros H0 H1. unfold Splitter.test_count.
  assert (HN : (0 <= inject_Z (Z.of_nat N))%Q).
  { change 0%Q with (inject_Z 0). rewrite <- Zle_Qle. lia. }
  destruct (round_half_even_bounds
              (ratio * inject_Z (Z.of_nat N))%Q (Z.of_nat N)) as [Ha Hb].
  - now apply Qmult_le_0_compat.
  - rewrite <- (Qmult_1_l (inject_Z (Z.of_nat N))) at 2.
    now apply Qmult_le_compat_r.
  - split; lia.
Qed.

Lemma NoDup_app_disjoint {A : Type} (l1 l2 : list A) (a : A) :
  NoDup (l1 ++ l2) -> In a l1 -> In a l2 -> False.
Proof.
  induction l1 as [| x r IH]; cbn; [easy |].
  intros Hnd [-> | Hin] H2.
  - inversion_clear Hnd as [| ? ? Hx _]. apply Hx, in_or_app. now right.
  - inversion_clear Hnd as [| ? ? _ Hr]. now apply IH.
Qed.

Section SplitFacts.

Variable shuffle : Z -> nat -> list nat.
Hypothesis shuffle_perm :
  forall seed N, Permutation (shuffle seed N) (seq 0 N).

Lemma shuffle_NoDup (seed : Z) (N : nat) : NoDup (shuffle seed N).
Proof.
  apply Permutation_NoDup with (seq 0 N).
  - apply Permutation_sym, shuffle_perm.
  - apply seq_NoDup.
Qed.

Lemma shuffle_In (seed : Z) (N i : nat) :
  In i (shuffle seed N) <-> (i < N)%nat.
Proof.
  split; intros H.
  - apply (Permutation_in _ (shuffle_perm seed N)) in H.
    apply in_seq in H. lia.
  - apply (Permutation_in _ (Permutation_sym (shuffle_perm seed N))).
    apply in_seq. lia.
Qed.

Lemma split_indices_partition (N : nat) (ratio : Q) (seed : Z) :
  let '(train, test) := Splitter.split_indices shuffle N ratio seed in
  NoDup train /\ NoDup test
  /\ (forall i, In i train -> ~ In i test)
  /\ (forall i, In i train \/ In i test <-> (i < N)%nat).
Proof.
  unfold Splitter.split_indices.
  set (k := Splitter.test_count ratio N).
  pose proof (shuffle_NoDup seed N) as Hnd.
  rewrite <- (firstn_skipn k (shuffle seed N)) in Hnd.
  pose proof (NoDup_app_remove_l _ _ Hnd) as Htrain.
  pose proof (NoDup_app_remove_r _ _ Hnd) as Htest.
  repeat split; try assumption.
  - intros i Hi Hi'.
    apply (NoDup_app_disjoint _ _ i Hnd); assumption.
  - intros H. apply (shuffle_In seed).
    rewrite <- (firstn_skipn k (shuffle seed N)). apply in_or_app. tauto.
  - intros H. apply (shuffle_In seed) in H.
    rewrite <- (firstn_skipn k (shuffle seed N)) in H.
    apply in_app_or in H. tauto.
Qed.

End SplitFacts.

Lemma rows_at_length {A : Type} (idx : list nat) (l : list A) :
  (forall i, In i idx -> (i < List.length l)%nat) ->
  List.length (Splitter.rows_at idx l) = List.length idx.
Proof.
  unfold Splitter.rows_at.
  induction idx as [| i r IH]; intros H; [reflexivity |].
  cbn [flat_map]. rewrite length_app, IH.
  - destruct (nth_error l i) eqn:E; [reflexivity |].
    apply nth_error_None in E. specialize (H i (or_introl eq_refl)). lia.
  - intros j Hj. apply H. now right.
Qed.

(** C3.  For a table of [N] rows, a test fraction and a seed, given that
    the seeded shuffle yields a permutation of the row indices: no index is
    in both parts, an index is in one of the parts exactly when it is below
    [N], neither part repeats an index, the two sizes add up to [N], the
    test part has exactly [round(ratio * N)] indices when the fraction lies
    between 0 and 1, and the partition is a function of the seed, so that
    the same seed gives the same parts. *)
Theorem split_is_partition :
  forall (shuffle : Z -> nat -> list nat),
    (forall seed N, Permutation (shuffle seed N) (seq 0 N)) ->
    forall (N : nat) (ratio : Q) (seed : Z),
      let '(train, test) := Splitter.split_indices shuffle N ratio seed in
      (forall i, In i train -> ~ In i test)
      /\ (forall i, In i train \/ In i test <-> (i < N)%nat)
      /\ NoDup train /\ NoDup test
      /\ (List.length train + List.length test = N)%nat
      /\ ((0 <= ratio)%Q -> (ratio <= 1)%Q ->
            Z.of_nat (List.length test)
            = Splitter.round_half_even (ratio * inject_Z (Z.of_nat N))%Q)
      /\ (forall seed', seed' = seed ->
            Splitter.split_indices shuffle N ratio seed' = (train, test)).
Proof.
  intros shuffle Hperm N ratio seed.
  pose proof (split_indices_partition shuffle Hperm N ratio seed) as Hp.
  assert (Hlen : List.length (shuffle seed N) = N).
  { rewrite (Permutation_length (Hperm seed N)). apply length_seq. }
  unfold Splitter.split_indices in *.
  destruct Hp as (Htrain & Htest & Hdisj & Hcover).
  repeat split; try assumption; try (apply Hcover).
  - rewrite length_firstn, length_skipn, Hlen. lia.
  - intros H0 H1. destruct (test_count_le ratio N H0 H1) as [Hle Hcount].
    rewrite length_firstn, Hlen, Nat.min_l by assumption. exact Hcount.
  - now intros seed' ->.
Qed.

Lemma rotate_perm (seed : Z) (N : nat) : Permutation (rotate seed N) (seq 0 N).
Proof.
  unfold rotate.
  set (k := Z.to_nat (seed mod Z.of_nat (S N))).
  rewrite <- (firstn_skipn k (seq 0 N)) at 3.
  apply Permutation_app_comm.
Qed.

Lemma split_ten_rows :
  Splitter.split_indices rotate 10 (3 # 10)%Q 42
    = ([2; 3; 4; 5; 6; 7; 8]%nat, [9; 0; 1]%nat)
  /\ (forall i, In i [2; 3; 4; 5; 6; 7; 8]%nat -> ~ In i [9; 0; 1]%nat)
  /\ (forall i, In i [2; 3; 4; 5; 6; 7; 8]%nat \/ In i [9; 0; 1]%nat
                <-> (i < 10)%nat)
  /\ Z.of_nat (List.length [9; 0; 1]%nat)
     = Splitter.round_half_even ((3 # 10) * inject_Z 10)%Q.
Proof.
  pose proof (split_is_partition rotate rotate_perm 10 (3 # 10)%Q 42) as H.
  change (Splitter.split_indices rotate 10 (3 # 10)%Q 42)
    with ([2; 3; 4; 5; 6; 7; 8]%nat, [9; 0; 1]%nat) in H.
  cbv beta iota in H.
  destruct H as (Hdisj & Hcover & _ & _ & _ & Hsize & _).
  split; [reflexivity |]. split; [exact Hdisj |]. split; [exact Hcover |].
  apply Hsize; unfold Qle; simpl; lia.
Defined.

(** ** Evaluator *)

Lemma ratio_zero (a : nat) : Evaluator.ratio a 0 = 0%Q.
Proof. reflexivity. Qed.

(** C5.  For the confusion counts TP = 8, FP = 2, FN = 1, TN = 9 the
    evaluator gives precision 0.8, recall 8/9 (0.889 to three places), f1
    16/19 (0.842 to three places) and support 9; and for any counts a
    metric whose denominator is 0 is 0. *)
Theorem evaluator_worked_example :
  forall m : Evaluator.confusion,
    Evaluator.TP m = 8%nat -> Evaluator.FP m = 2%nat ->
    Evaluator.FN m = 1%nat -> Evaluator.TN m = 9%nat ->
    (Evaluator.cm_precision (Evaluator.metrics m) == 8 # 10)%Q
    /\ (Evaluator.cm_recall (Evaluator.metrics m) == 8 # 9)%Q
    /\ (8885 # 10000 <= Evaluator.cm_recall (Evaluator.metrics m))%Q
    /\ (Evaluator.cm_recall (Evaluator.metrics m) < 8895 # 10000)%Q
    /\ (Evaluator.cm_f1 (Evaluator.metrics m) == 16 # 19)%Q
    /\ (8415 # 10000 <= Evaluator.cm_f1 (Evaluator.metrics m))%Q
    /\ (Evaluator.cm_f1 (Evaluator.metrics m) < 8425 # 10000)%Q
    /\ Evaluator.cm_support (Evaluator.metrics m) = 9%nat
    /\ (forall k : Evaluator.confusion,
          ((Evaluator.TP k + Evaluator.FP k = 0)%nat ->
             Evaluator.precision k = 0%Q)
          /\ ((Evaluator.TP k + Evaluator.FN k = 0)%nat ->
                Evaluator.recall k = 0%Q)
          /\ ((Evaluator.precision k == 0)%Q ->
              (Evaluator.recall k == 0)%Q -> Evaluator.f1 k = 0%Q)).
Proof.
  intros [tp fp fn tn]. cbn [Evaluator.TP Evaluator.FP Evaluator.FN Evaluator.TN].
  intros -> -> -> ->.
  repeat split; try reflexivity; try (intros H; discriminate H).
  - unfold Evaluator.precision. intros ->. apply ratio_zero.
  - unfold Evaluator.recall. intros ->. apply ratio_zero.
  - intros Hp Hr. unfold Evaluator.f1.
    assert (H : (Evaluator.precision k + Evaluator.recall k == 0)%Q)
      by (rewrite Hp, Hr; reflexivity).
    apply Qeq_bool_iff in H. now rewrite H.
Qed.

Lemma worked_counts_metrics :
  Evaluator.confusion_of 0 worked_y_true worked_y_pred
    = {| Evaluator.TP := 8; Evaluator.FP := 2;
         Evaluator.FN := 1; Evaluator.TN := 9 |}
  /\ Evaluator.metrics (Evaluator.confusion_of 0 worked_y_true worked_y_pred)
     = {| Evaluator.cm_precision := 8 # 10;
          Evaluator.cm_recall := 8 # 9;
          Evaluator.cm_f1 := 11520 # 13680;
          Evaluator.cm_support := 9 |}
  /\ (11520 # 13680 == 16 # 19)%Q
  /\ Evaluator.precision
       (Evaluator.confusion_of 2 worked_y_true worked_y_pred) = 0%Q.
Proof.
  destruct (evaluator_worked_example
              (Evaluator.confusion_of 0 worked_y_true worked_y_pred)
              eq_refl eq_refl eq_refl eq_refl)
    as (_ & _ & _ & _ & Hf1 & _ & _ & _ & Hzero).
  split; [reflexivity |]. split; [reflexivity |]. split; [exact Hf1 |].
  apply (proj1 (Hzero (Evaluator.confusion_of 2 worked_y_true worked_y_pred))).
  reflexivity.
Defined.

(** ** Console behaviour of the pipeline *)

Lemma quiet_refl (s : console) : quiet s s.
Proof.
  split; [reflexivity |]. exists []. now rewrite app_nil_r.
Qed.

Lemma quiet_trans (s1 s2 s3 : console) :
  quiet s1 s2 -> quiet s2 s3 -> quiet s1 s3.
Proof.
  intros [Hi (o1 & Ht & Hn)] [Hi' (o2 & Ht' & Hn')]. split; [congruence |].
  exists (o1 ++ o2). split.
  - now rewrite Ht', Ht, app_assoc.
  - unfold no_prompt in *. now rewrite forallb_app, Hn, Hn'.
Qed.

Lemma silent_ret {A : Type} (a : A) : silent (ret a).
Proof. intros s. apply quiet_refl. Qed.

Lemma silent_lift {A : Type} (r : outcome A) : silent (lift r).
Proof. intros s. apply quiet_refl. Qed.

Lemma silent_print (line : string) : silent (print line).
Proof.
  intros s. split; [reflexivity |]. now exists [Print line].
Qed.

Lemma silent_bind {A B : Type} (c : M A) (k : A -> M B) :
  silent c -> (forall a, silent (k a)) -> silent (bind c k).
Proof.
  intros Hc Hk s. unfold bind. specialize (Hc s).
  destruct (c s) as [[a | e] s1]; cbn [snd] in *; [| exact Hc].
  apply quiet_trans with s1; [exact Hc | apply Hk].
Qed.

Create HintDb silent.
#[local] Hint Resolve silent_ret silent_lift silent_print : silent.

Lemma silent_preprocess_data (lib : library) (env : environment)
    (path : string) : silent (preprocess_data lib env path).
Proof.
  unfold preprocess_data.
  apply silent_bind; [auto with silent | intros data].
  apply silent_bind; [auto with silent | intros _].
  apply silent_bind; [auto with silent | intros _].
  apply silent_bind; [auto with silent | intros labels].
  destruct (split_data lib data labels) as [[[[X_train X_test] y_train] y_test] le].
  apply silent_bind; [auto with silent | intros X_train'].
  apply silent_bind; [auto with silent | intros X_test'].
  auto with silent.
Qed.

Lemma silent_train_and_evaluate_model (lib : library)
    (X_train X_test : list (list float)) (y_train y_test : list nat)
    (le : LabelEncoder.encoding) :
  silent (train_and_evaluate_model lib X_train X_test y_train y_test le).
Proof.
  unfold train_and_evaluate_model.
  apply silent_bind; [auto with silent | intros _].
  apply silent_bind; [auto with silent | intros report].
  apply silent_bind; [auto with silent | intros _].
  apply silent_bind; [auto with silent | intros _].
  auto with silent.
Qed.

Lemma silent_prepare (lib : library) (env : environment) :
  silent (prepare lib env).
Proof.
  unfold prepare.
  apply silent_bind; [apply silent_preprocess_data |].
  intros [[[[[X_train X_test] y_train] y_test] le] scaler].
  apply silent_bind; [apply silent_train_and_evaluate_model | intros clf].
  auto with silent.
Qed.

(** [main] is [prepare], then the gate, then one of the two branches. *)
Lemma main_unfold (lib : library) (env : environment) (s : console) :
  main lib env s =
    match prepare lib env s with
    | (Ok (clf, scaler, le), s1) =>
        match firebase_get env firebase_url "/Realtime" with
        | Ok (Some _) =>
            predict_and_send_to_firebase lib env clf scaler le firebase_url
              (emit (FirebaseGet firebase_url "/Realtime") s1)
        | Ok None =>
            print "Failed to retrieve data from Firebase."
              (emit (FirebaseGet firebase_url "/Realtime") s1)
        | Raise e => (Raise e, emit (FirebaseGet firebase_url "/Realtime") s1)
        end
    | (Raise e, s1) => (Raise e, s1)
    end.
Proof.
  unfold main, prepare, bind.
  destruct (preprocess_data lib env filepath s) as [[r | e] s1];
    [| reflexivity].
  destruct r as [[[[[X_train X_test] y_train] y_test] le] scaler].
  destruct (train_and_evaluate_model lib X_train X_test y_train y_test le s1)
    as [[clf | e] s2]; [| reflexivity].
  unfold ret, remote_get.
  destruct (firebase_get env firebase_url "/Realtime") as [[v |] | e];
    reflexivity.
Qed.

(** C7.  [main] asks the remote store before it asks the keyboard: up to
    the [get] nothing is read and no prompt is written.  When the [get]
    answers with nothing, [main] reports the failure and ends: no line is
    read, no prompt written, no prediction printed or published.  When it
    answers with a value, [main] continues as
    [predict_and_send_to_firebase]. *)
Theorem main_gates_on_remote_get :
  forall (lib : library) (env : environment) (s : console),
    match prepare lib env s with
    | (Raise e, s1) => main lib env s = (Raise e, s1) /\ quiet s s1
    | (Ok (clf, scaler, le), s1) =>
        quiet s s1
        /\ match firebase_get env firebase_url "/Realtime" with
           | Ok None =>
               main lib env s =
                 (Ok tt,
                  {| stdin := stdin s;
                     trace := trace s1
                       ++ [FirebaseGet firebase_url "/Realtime";
                           Print "Failed to retrieve data from Firebase."] |})
           | Ok (Some _) =>
               main lib env s =
                 predict_and_send_to_firebase lib env clf scaler le
                   firebase_url
                   {| stdin := stdin s;
                      trace := trace s1
                        ++ [FirebaseGet firebase_url "/Realtime"] |}
           | Raise e =>
               main lib env s =
                 (Raise e,
                  {| stdin := stdin s;
                     trace := trace s1
                       ++ [FirebaseGet firebase_url "/Realtime"] |})
           end
    end.
Proof.
  intros lib env s. rewrite main_unfold.
  pose proof (silent_prepare lib env s) as Hq.
  destruct (prepare lib env s) as [[[[clf scaler] le] | e] s1];
    cbn [snd] in Hq; [| now split].
  split; [exact Hq |]. destruct Hq as [Hin _].
  unfold print, emit. cbn [stdin trace]. rewrite Hin, <- app_assoc.
  destruct (firebase_get env firebase_url "/Realtime") as [[v |] | e];
    reflexivity.
Qed.

(** ** Collecting the four inputs *)

Lemma input_valid_Ok (prompt : string) (lo hi : Z) (s s' : console)
    (v : float) :
  input_valid prompt lo hi s = (Ok v, s') -> within lo hi v.
Proof.
  unfold input_valid.
  destruct (get_valid_input prompt lo hi (stdin s)) as [[r evs] rest] eqn:E.
  intros [= -> _]. apply in_range_within.
  now apply get_valid_input_Ok_in_range in E.
Qed.

Lemma input_valid_Raise (prompt : string) (lo hi : Z) (s s' : console)
    (e : exn) :
  input_valid prompt lo hi s = (Raise e, s') -> e = EOFError.
Proof.
  unfold input_valid.
  destruct (get_valid_input prompt lo hi (stdin s)) as [[r evs] rest] eqn:E.
  intros [= -> _]. now apply get_valid_input_Raise in E.
Qed.

Lemma gather_inputs_unfold (s : console) : gather_inputs s = four_inputs s.
Proof.
  unfold gather_inputs, four_inputs, input_ranges.
  cbn [mapM fst snd]. unfold bind, ret.
  change ("Enter " ++ "Air Humidity (%)" ++ ": ")%string
    with "Enter Air Humidity (%): ".
  change ("Enter " ++ ("Air Temperature (" ++ degree_sign ++ "C)") ++ ": ")%string
    with ("Enter Air Temperature (" ++ degree_sign ++ "C): ")%string.
  change ("Enter " ++ "Soil pH" ++ ": ")%string with "Enter Soil pH: ".
  change ("Enter " ++ "Rainfall (mm)" ++ ": ")%string
    with "Enter Rainfall (mm): ".
  destruct (input_valid "Enter Air Humidity (%): " 10 90 s)
    as [[h | e] s1]; [| reflexivity].
  destruct (input_valid _ 10 45 s1) as [[t | e] s2]; [| reflexivity].
  destruct (input_valid "Enter Soil pH: " 4 9 s2)
    as [[p | e] s3]; [| reflexivity].
  destruct (input_valid "Enter Rainfall (mm): " 0 300 s3)
    as [[r | e] s4]; reflexivity.
Qed.

(** C10.  The prediction path asks for exactly four values, in this order
    and with these closed ranges: air humidity in [10, 90], air temperature
    in [10, 45], soil pH in [4, 9], rainfall in [0, 300].  The table of
    ranges is a constant, so this is so on every run; the collection either
    yields the four values, each within its range, or ends with [EOFError]
    on an exhausted keyboard. *)
Theorem gather_inputs_four_in_order :
  forall s : console,
    input_ranges =
      [ ("Air Humidity (%)", (10, 90));
        (("Air Temperature (" ++ degree_sign ++ "C)")%string, (10, 45));
        ("Soil pH", (4, 9));
        ("Rainfall (mm)", (0, 300)) ]
    /\ gather_inputs s = four_inputs s
    /\ match gather_inputs s with
       | (Ok inputs, _) =>
           exists h t p r,
             inputs = [h; t; p; r]
             /\ within 10 90 h /\ within 10 45 t
             /\ within 4 9 p /\ within 0 300 r
       | (Raise e, _) => e = EOFError
       end.
Proof.
  intros s. split; [reflexivity |]. split; [apply gather_inputs_unfold |].
  rewrite gather_inputs_unfold. unfold four_inputs, bind, ret.
  destruct (input_valid "Enter Air Humidity (%): " 10 90 s)
    as [[h | e] s1] eqn:E1; [| now apply input_valid_Raise in E1].
  destruct (input_valid _ 10 45 s1) as [[t | e] s2] eqn:E2;
    [| now apply input_valid_Raise in E2].
  destruct (input_valid "Enter Soil pH: " 4 9 s2) as [[p | e] s3] eqn:E3;
    [| now apply input_valid_Raise in E3].
  destruct (input_valid "Enter Rainfall (mm): " 0 300 s3)
    as [[r | e] s4] eqn:E4; [| now apply input_valid_Raise in E4].
  exists h, t, p, r.
  apply input_valid_Ok in E1, E2, E3, E4. now repeat split.
Qed.

(** ** Publishing the prediction *)

(** C8.  Once the four inputs are in and the crop is predicted, the crop is
    printed before the remote [put] is tried, and
    [predict_and_send_to_firebase] returns normally whatever the [put]
    does: a failure is caught and reported on its own line after the
    prediction, and no exception leaves the function. *)
Theorem put_failure_keeps_prediction :
  forall (lib : library) (env : environment) (clf : tree lib)
         (scaler : StandardScaler.stats) (le : LabelEncoder.encoding)
         (url : string) (s s1 : console) (inputs : list float)
         (crop : string),
    gather_inputs s = (Ok inputs, s1) ->
    predict_crop lib clf scaler le inputs = Ok crop ->
    predict_and_send_to_firebase lib env clf scaler le url s =
      (Ok tt,
       {| stdin := stdin s1;
          trace := trace s1
            ++ [Print ("The predicted crop is: " ++ crop);
                FirebasePut url "/croppredicted" "crop" crop;
                Print match firebase_put env url "/croppredicted" "crop" crop
                      with
                      | Ok _ => "Prediction successfully sent to Firebase!"
                      | Raise e =>
                          "Error sending data to Firebase: " ++ exn_str e
                      end] |}).
Proof.
  intros lib env clf scaler le url s s1 inputs crop Hin Hcrop.
  unfold predict_and_send_to_firebase, bind. rewrite Hin.
  unfold lift. rewrite Hcrop.
  unfold send_to_firebase, try_except, bind, remote_put, print, emit.
  cbn [stdin trace].
  destruct (firebase_put env url "/croppredicted" "crop" crop) as [[] | e];
    cbn [stdin trace]; now rewrite <- !app_assoc.
Qed.

(** ** The scaler and the training partition *)

Lemma preprocess_data_scaler (lib : library) (env : environment)
    (path : string) (s : console) (r : preprocessed) :
  fst (preprocess_data lib env path s) = Ok r ->
  exists rows,
    loaded_train_rows lib env path = Some rows
    /\ snd r = StandardScaler.fit rows.
Proof.
  unfold preprocess_data, loaded_train_rows, train_rows, getitem_label,
    bind, lift, print, ret.
  destruct (read_csv env path) as [data | e]; [| discriminate].
  destruct (label data) as [labels |]; [| discriminate].
  destruct (split_data lib data labels)
    as [[[[X_train X_test] y_train] y_test] le].
  destruct (StandardScaler.transform (StandardScaler.fit X_train) X_train);
    [| discriminate].
  destruct (StandardScaler.transform (StandardScaler.fit X_train) X_test);
    [| discriminate].
  cbn [fst]. intros [= <-]. now exists X_train.
Qed.

(** C4.  The scaler that [preprocess_data] returns is determined by the
    training rows alone: two runs (any tables, any test rows, any console)
    whose unscaled training rows are equal return equal statistics. *)
Theorem scaler_depends_on_train_rows_only :
  forall (lib1 lib2 : library) (env1 env2 : environment)
         (path1 path2 : string) (s1 s2 : console) (r1 r2 : preprocessed),
    fst (preprocess_data lib1 env1 path1 s1) = Ok r1 ->
    fst (preprocess_data lib2 env2 path2 s2) = Ok r2 ->
    loaded_train_rows lib1 env1 path1 = loaded_train_rows lib2 env2 path2 ->
    snd r1 = snd r2.
Proof.
  intros lib1 lib2 env1 env2 path1 path2 s1 s2 r1 r2 H1 H2 Hrows.
  apply preprocess_data_scaler in H1 as (rows1 & E1 & ->).
  apply preprocess_data_scaler in H2 as (rows2 & E2 & ->).
  congruence.
Qed.

(** ** Two runs on tables that differ in their test row only *)

Lemma scaler_same_for_two_tables :
  exists r1 r2 : preprocessed,
    fst (preprocess_data demo_lib (demo_env "23.0" (Ok tt)) filepath
           demo_console) = Ok r1
    /\ fst (preprocess_data demo_lib (demo_env "35.5" (Ok tt)) filepath
              {| stdin := []; trace := [] |}) = Ok r2
    /\ test_rows demo_lib (demo_table "23.0") demo_labels
       <> test_rows demo_lib (demo_table "35.5") demo_labels
    /\ snd r1 = snd r2.
Proof.
  eexists. eexists.
  split; [vm_compute; reflexivity |].
  split; [vm_compute; reflexivity |].
  split; [vm_compute; discriminate |].
  apply (scaler_depends_on_train_rows_only
           demo_lib demo_lib
           (demo_env "23.0" (Ok tt)) (demo_env "35.5" (Ok tt))
           filepath filepath
           demo_console {| stdin := []; trace := [] |}).
  - vm_compute; reflexivity.
  - vm_compute; reflexivity.
  - vm_compute; reflexivity.
Defined.

Lemma put_refused_still_prints_crop :
  predict_and_send_to_firebase demo_lib
    (demo_env "23.0" (Raise (Exception "Connection refused")))
    O demo_scaler (LabelEncoder.fit demo_labels) firebase_url demo_console
  = (Ok tt,
     {| stdin := [];
        trace :=
          [ Prompt "Enter Air Humidity (%): ";
            Prompt ("Enter Air Temperature (" ++ degree_sign ++ "C): ");
            Prompt "Enter Soil pH: ";
            Prompt "Enter Rainfall (mm): ";
            Print "The predicted crop is: rice";
            FirebasePut firebase_url "/croppredicted" "crop" "rice";
            Print "Error sending data to Firebase: Connection refused" ] |}).
Proof.
  apply (put_failure_keeps_prediction demo_lib
           (demo_env "23.0" (Raise (Exception "Connection refused")))
           O demo_scaler (LabelEncoder.fit demo_labels) firebase_url
           demo_console
           {| stdin := [];
              trace :=
                [ Prompt "Enter Air Humidity (%): ";
                  Prompt ("Enter Air Temperature (" ++ degree_sign ++ "C): ");
                  Prompt "Enter Soil pH: ";
                  Prompt "Enter Rainfall (mm): " ] |}
           [f64 "80"; f64 "20"; f64 "6.5"; f64 "200"] "rice").
  - vm_compute; reflexivity.
  - vm_compute; reflexivity.
Defined.

(** ** Order of the inputs against the order of the training columns *)

(** C1 (where the notebook departs from it).  The table's feature columns
    are temperature, humidity, ph, rainfall; the keyboard is asked for
    humidity, temperature, pH, rainfall, and [predict_crop] hands the
    answers to the scaler and the classifier in that order.  The scaler
    pairs position with position, so the classifier receives, as its first
    feature, the humidity reading standardized with the mean and deviation
    of the temperature column, and as its second the temperature reading
    standardized with those of the humidity column.  On the answers 80, 20,
    6.5, 200 and a tree that splits on the temperature column the notebook
    predicts wheat, where the same readings in column order give rice. *)
Theorem predict_crop_scales_humidity_as_temperature :
  feature_names (demo_table "23.0") = cpdata1_columns
  /\ map column_quantity cpdata1_columns
     = [Some Temperature; Some Humidity; Some SoilPH; Some Rainfall]
  /\ map prompt_quantity (map fst input_ranges)
     = [Some Humidity; Some Temperature; Some SoilPH; Some Rainfall]
  /\ (forall (lib : library) (clf : tree lib) (le : LabelEncoder.encoding)
             (m0 m1 m2 m3 d0 d1 d2 d3 h t p r : float),
        predict_crop lib clf
          {| StandardScaler.mean_ := [m0; m1; m2; m3];
             StandardScaler.scale_ := [d0; d1; d2; d3] |} le [h; t; p; r]
        = match decode_all le
                  [tree_predict lib clf
                     [ Float64.div (Float64.sub h m0) d0;
                       Float64.div (Float64.sub t m1) d1;
                       Float64.div (Float64.sub p m2) d2;
                       Float64.div (Float64.sub r m3) d3 ]]
          with
          | Ok crops => first_crop crops
          | Raise e => Raise e
          end)
  /\ fst (gather_inputs demo_console)
     = Ok [f64 "80"; f64 "20"; f64 "6.5"; f64 "200"]
  /\ StandardScaler.mean_ demo_scaler
     = [ StandardScaler.mean [f64 "26.4"; f64 "20.8"; f64 "21.7"];
         StandardScaler.mean [f64 "55.2"; f64 "82.0"; f64 "80.3"];
         StandardScaler.mean [f64 "5.9"; f64 "6.5"; f64 "7.0"];
         StandardScaler.mean [f64 "95.0"; f64 "202.9"; f64 "226.6"] ]
  /\ predict_crop stump_lib tt demo_scaler (LabelEncoder.fit demo_labels)
       [f64 "80"; f64 "20"; f64 "6.5"; f64 "200"]
     = first_crop
         [if SFltb (S754_zero false)
               (Float64.div
                  (Float64.sub (f64 "80")
                     (StandardScaler.mean
                        [f64 "26.4"; f64 "20.8"; f64 "21.7"]))
                  (StandardScaler.scale
                     [f64 "26.4"; f64 "20.8"; f64 "21.7"]))
          then "wheat" else "rice"]
  /\ predict_and_send_to_firebase stump_lib (demo_env "23.0" (Ok tt)) tt
       demo_scaler (LabelEncoder.fit demo_labels) firebase_url demo_console
     = (Ok tt,
        {| stdin := [];
           trace :=
             [ Prompt "Enter Air Humidity (%): ";
               Prompt ("Enter Air Temperature (" ++ degree_sign ++ "C): ");
               Prompt "Enter Soil pH: ";
               Prompt "Enter Rainfall (mm): ";
               Print "The predicted crop is: wheat";
               FirebasePut firebase_url "/croppredicted" "crop" "wheat";
               Print "Prediction successfully sent to Firebase!" ] |})
  /\ predict_crop stump_lib tt demo_scaler (LabelEncoder.fit demo_labels)
       [f64 "20"; f64 "80"; f64 "6.5"; f64 "200"]
     = Ok "rice".
Proof.
  split; [reflexivity |]. split; [reflexivity |]. split; [reflexivity |].
  split; [intros; reflexivity |].
  repeat split; vm_compute; reflexivity.
Qed.

(** * Further properties of the notebook's functions *)

(** ** The input loop *)

Lemma get_valid_input_only_bad_lines :
  get_valid_input "Enter Soil pH: " 4 9 ["abc"; "150"; "nan"] =
    (Raise EOFError,
     [Prompt "Enter Soil pH: ";
      Print "Invalid input. Please enter a numeric value.";
      Prompt "Enter Soil pH: ";
      Print "Please enter a value between 4 and 9.";
      Prompt "Enter Soil pH: ";
      Print "Please enter a value between 4 and 9.";
      Prompt "Enter Soil pH: "],
     []).
Proof.
  apply (get_valid_input_exhausted "Enter Soil pH: " 4 9 ["abc"; "150"; "nan"]).
  repeat constructor.
Defined.

(** Lines outside ASCII: the full-width digits of 45 (U+FF14, U+FF15) and
    a no-break space (U+00A0) before 45 are read as 45.0; a file separator
    (byte 28) before 45 is not a blank for [float], so that line is
    rejected and the next one is read. *)
Lemma get_valid_input_beyond_ascii :
  get_valid_input "Enter Air Humidity (%): " 10 90
    [string_of_list_ascii (map ascii_of_nat [239; 188; 148; 239; 188; 149]%nat);
     "50"]
  = (Ok (f64 "45.0"), [Prompt "Enter Air Humidity (%): "], ["50"])
  /\ get_valid_input "Enter Air Humidity (%): " 10 90
       [string_of_list_ascii (map ascii_of_nat [194; 160; 52; 53]%nat); "50"]
     = (Ok (f64 "45.0"), [Prompt "Enter Air Humidity (%): "], ["50"])
  /\ get_valid_input "Enter Air Humidity (%): " 10 90
       [string_of_list_ascii (map ascii_of_nat [28; 52; 53]%nat); "50"]
     = (Ok (f64 "50.0"),
        [Prompt "Enter Air Humidity (%): ";
         Print "Invalid input. Please enter a numeric value.";
         Prompt "Enter Air Humidity (%): "],
        []).
Proof. repeat split; vm_compute; reflexivity. Qed.

Lemma get_valid_input_used (prompt : string) (lo hi : Z)
    (lines : list string) :
  let '(r, evs, rest) := get_valid_input prompt lo hi lines in
  exists used,
    lines = used ++ rest
    /\ prompt_count evs
       = match r with
         | Ok _ => List.length used
         | Raise _ => S (List.length used)
         end
    /\ Forall (fun e => e = Prompt prompt
                        \/ e = Print (range_message lo hi)
                        \/ e = Print numeric_message) evs
    /\ match r with
       | Ok _ => used <> []
       | Raise _ => rest = []
       end.
Proof.
  induction lines as [| line lines IH].
  - exists []. cbn. repeat split; auto.
  - destruct (accepted lo hi line) as [v |] eqn:Ha.
    + rewrite (get_valid_input_accept _ _ _ _ _ _ Ha).
      exists [line]. cbn. repeat split; auto. discriminate.
    + rewrite (get_valid_input_reject _ _ _ _ _ Ha).
      destruct (get_valid_input prompt lo hi lines) as [[r evs] rest].
      destruct IH as (used & -> & Hc & Hev & Hr).
      exists (line :: used). unfold prompt_count in *. cbn [filter is_prompt].
      cbn [List.length app]. rewrite Hc. repeat split.
      * now destruct r.
      * constructor; [now left |]. constructor; [| exact Hev].
        right. unfold rejection.
        destruct (PyFloat.float_of_string line); auto.
      * destruct r; [discriminate | exact Hr].
Qed.

(** X2.  Every turn of the loop writes the prompt once and reads one line:
    the lines read are a prefix of the keyboard, the rest stays unread, the
    number of prompts is the number of lines read (one more when the
    keyboard ran out under the last prompt), and the only other output is
    the two messages.  A returned value cost at least one line. *)
Theorem get_valid_input_consumes :
  forall (prompt : string) (lo hi : Z) (lines : list string),
    let '(r, evs, rest) := get_valid_input prompt lo hi lines in
    exists used,
      lines = used ++ rest
      /\ prompt_count evs
         = match r with
           | Ok _ => List.length used
           | Raise _ => S (List.length used)
           end
      /\ Forall (fun e => e = Prompt prompt
                          \/ e = Print (range_message lo hi)
                          \/ e = Print numeric_message) evs
      /\ match r with
         | Ok _ => used <> []
         | Raise _ => rest = []
         end.
Proof. exact get_valid_input_used. Qed.

Lemma in_range_le (lo hi : Z) (v : float) :
  in_range lo hi v = true -> lo <= hi.
Proof.
  intros H. apply in_range_within in H as (q & _ & Hlo & Hhi).
  rewrite Zle_Qle. now apply Qle_trans with q.
Qed.

(** X3.  With an empty range (upper bound below the lower one) no line is
    ever returned: the loop rejects the whole keyboard and ends with
    [EOFError]. *)
Theorem get_valid_input_empty_range :
  forall (prompt : string) (lo hi : Z) (lines : list string),
    hi < lo ->
    get_valid_input prompt lo hi lines =
      (Raise EOFError, retries prompt lo hi lines ++ [Prompt prompt], []).
Proof.
  intros prompt lo hi lines Hlt.
  induction lines as [| line lines IH]; [reflexivity |].
  rewrite get_valid_input_reject, IH; [reflexivity |].
  unfold accepted.
  destruct (PyFloat.float_of_string line) as [v |]; [| reflexivity].
  destruct (in_range lo hi v) eqn:H; [| reflexivity].
  apply in_range_le in H. lia.
Qed.

Lemma get_valid_input_reversed_bounds :
  get_valid_input "Enter Soil pH: " 9 4 ["5"; "9"; "4"] =
    (Raise EOFError,
     retries "Enter Soil pH: " 9 4 ["5"; "9"; "4"] ++ [Prompt "Enter Soil pH: "],
     []).
Proof.
  apply (get_valid_input_empty_range "Enter Soil pH: " 9 4 ["5"; "9"; "4"]).
  reflexivity.
Defined.

Lemma Z_le_complete (n : Z) (v : float) (q : Q) :
  Float64.to_Q v = Some q -> (inject_Z n <= q)%Q -> Float64.Z_le n v = true.
Proof.
  unfold Float64.Z_le, Float64.to_Q, Float64.compare_Z.
  destruct v as [s | s | | s m e]; try discriminate.
  - intros [= <-]. rewrite <- Zle_Qle. intros H.
    destruct (Z.compare_spec n 0); try reflexivity; lia.
  - destruct (0 <=? e) eqn:He; intros [= <-].
    + rewrite <- Zle_Qle. intros H.
      destruct (Z.compare_spec n (cond_Zopp s (Z.pos m) * 2 ^ e));
        try reflexivity; lia.
    + apply Z.leb_gt in He.
      unfold Qle. cbn [Qnum Qden inject_Z].
      rewrite pow2_to_pos by lia. intros H.
      destruct (Z.compare_spec (n * 2 ^ (- e)) (cond_Zopp s (Z.pos m)));
        try reflexivity; lia.
Qed.

Lemma le_Z_complete (n : Z) (v : float) (q : Q) :
  Float64.to_Q v = Some q -> (q <= inject_Z n)%Q -> Float64.le_Z v n = true.
Proof.
  unfold Float64.le_Z, Float64.to_Q, Float64.compare_Z.
  destruct v as [s | s | | s m e]; try discriminate.
  - intros [= <-]. rewrite <- Zle_Qle. intros H.
    destruct (Z.compare_spec n 0); try reflexivity; lia.
  - destruct (0 <=? e) eqn:He; intros [= <-].
    + rewrite <- Zle_Qle. intros H.
      destruct (Z.compare_spec n (cond_Zopp s (Z.pos m) * 2 ^ e));
        try reflexivity; lia.
    + apply Z.leb_gt in He.
      unfold Qle. cbn [Qnum Qden inject_Z].
      rewrite pow2_to_pos by lia. intros H.
      destruct (Z.compare_spec (n * 2 ^ (- e)) (cond_Zopp s (Z.pos m)));
        try reflexivity; lia.
Qed.

(** X4.  The range check [min_val <= value <= max_val] is exact and closed:
    it holds precisely for the finite floats whose real value lies between
    the two integer bounds, both ends included; the integer bounds are not
    rounded to floats for the comparison. *)
Theorem in_range_iff_within :
  forall (lo hi : Z) (v : float),
    in_range lo hi v = true <-> within lo hi v.
Proof.
  intros lo hi v. split; [apply in_range_within |].
  intros (q & Hq & Hlo & Hhi). unfold in_range.
  now rewrite (Z_le_complete lo v q Hq Hlo), (le_Z_complete hi v q Hq Hhi).
Qed.

(** ** What the steps add to the trace *)

Lemma emits_only_ret (P : event -> bool) {A : Type} (a : A) :
  emits_only P (ret a).
Proof. intros s. exists []. now rewrite app_nil_r. Qed.

Lemma emits_only_lift (P : event -> bool) {A : Type} (r : outcome A) :
  emits_only P (lift r).
Proof. intros s. exists []. now rewrite app_nil_r. Qed.

Lemma emits_only_print (P : event -> bool) (line : string) :
  P (Print line) = true -> emits_only P (print line).
Proof.
  intros HP s. exists [Print line]. split; [reflexivity |].
  cbn. now rewrite HP.
Qed.

Lemma emits_only_bind (P : event -> bool) {A B : Type}
    (c : M A) (k : A -> M B) :
  emits_only P c -> (forall a, emits_only P (k a)) ->
  emits_only P (bind c k).
Proof.
  intros Hc Hk s. unfold bind. destruct (Hc s) as (o1 & Ht1 & Hp1).
  destruct (c s) as [[a | e] s1]; cbn [snd] in *.
  - destruct (Hk a s1) as (o2 & Ht2 & Hp2). exists (o1 ++ o2). split.
    + now rewrite Ht2, Ht1, app_assoc.
    + now rewrite forallb_app, Hp1, Hp2.
  - now exists o1.
Qed.

Lemma emits_only_mapM (P : event -> bool) {A B : Type}
    (f : A -> M B) (l : list A) :
  (forall a, emits_only P (f a)) -> emits_only P (mapM f l).
Proof.
  intros Hf. induction l as [| a l IH]; cbn [mapM].
  - apply emits_only_ret.
  - apply emits_only_bind; [apply Hf | intros b].
    apply emits_only_bind; [exact IH | intros bs]. apply emits_only_ret.
Qed.

Create HintDb emits.
#[local] Hint Resolve emits_only_ret emits_only_lift : emits.
#[local] Hint Extern 1 (emits_only _ (print _)) =>
  (apply emits_only_print; reflexivity) : emits.

Lemma prints_only_preprocess_data (lib : library) (env : environment)
    (path : string) : emits_only is_print (preprocess_data lib env path).
Proof.
  unfold preprocess_data.
  apply emits_only_bind; [auto with emits | intros data].
  apply emits_only_bind; [auto with emits | intros _].
  apply emits_only_bind; [auto with emits | intros _].
  apply emits_only_bind; [auto with emits | intros labels].
  destruct (split_data lib data labels)
    as [[[[X_train X_test] y_train] y_test] le].
  apply emits_only_bind; [auto with emits | intros X_train'].
  apply emits_only_bind; [auto with emits | intros X_test'].
  auto with emits.
Qed.

Lemma prints_only_train_and_evaluate_model (lib : library)
    (X_train X_test : list (list float)) (y_train y_test : list nat)
    (le : LabelEncoder.encoding) :
  emits_only is_print
    (train_and_evaluate_model lib X_train X_test y_train y_test le).
Proof.
  unfold train_and_evaluate_model.
  apply emits_only_bind; [auto with emits | intros _].
  apply emits_only_bind; [auto with emits | intros report].
  apply emits_only_bind; [auto with emits | intros _].
  apply emits_only_bind; [auto with emits | intros _].
  auto with emits.
Qed.

Lemma prints_only_prepare (lib : library) (env : environment) :
  emits_only is_print (prepare lib env).
Proof.
  unfold prepare.
  apply emits_only_bind; [apply prints_only_preprocess_data |].
  intros [[[[[X_train X_test] y_train] y_test] le] scaler].
  apply emits_only_bind;
    [apply prints_only_train_and_evaluate_model | intros clf].
  auto with emits.
Qed.

Lemma remote_events_none (P : event -> bool) (out : list event) :
  (forall e, P e = true -> is_remote e = false) ->
  forallb P out = true -> remote_events out = [].
Proof.
  intros HP. unfold remote_events.
  induction out as [| e out IH]; [reflexivity |]. cbn [forallb filter].
  intros H. apply andb_prop in H as [He Hout].
  now rewrite (HP e He), IH.
Qed.

Lemma remote_events_app (o1 o2 : list event) :
  remote_events (o1 ++ o2) = remote_events o1 ++ remote_events o2.
Proof. apply filter_app. Qed.

Lemma prompt_count_app (o1 o2 : list event) :
  prompt_count (o1 ++ o2) = (prompt_count o1 + prompt_count o2)%nat.
Proof. unfold prompt_count. now rewrite filter_app, length_app. Qed.

Lemma input_valid_used (prompt : string) (lo hi : Z) (s : console) :
  exists used out,
    stdin s = used ++ stdin (snd (input_valid prompt lo hi s))
    /\ trace (snd (input_valid prompt lo hi s)) = trace s ++ out
    /\ forallb (fun e => negb (is_remote e)) out = true
    /\ match fst (input_valid prompt lo hi s) with
       | Ok _ => prompt_count out = List.length used /\ used <> []
       | Raise _ => True
       end.
Proof.
  unfold input_valid.
  pose proof (get_valid_input_used prompt lo hi (stdin s)) as H.
  destruct (get_valid_input prompt lo hi (stdin s)) as [[r evs] rest].
  destruct H as (used & Hl & Hc & Hev & Hr).
  exists used, evs. cbn [fst snd stdin trace]. repeat split; try assumption.
  - clear Hc Hr. induction Hev as [| e evs He _ IH]; [reflexivity |].
    cbn [forallb]. rewrite IH.
    now destruct He as [-> | [-> | ->]].
  - destruct r; [now split | exact I].
Qed.

Lemma console_only_input_valid (prompt : string) (lo hi : Z) :
  emits_only (fun e => negb (is_remote e)) (input_valid prompt lo hi).
Proof.
  intros s. destruct (input_valid_used prompt lo hi s)
    as (used & out & _ & Ht & Hp & _).
  now exists out.
Qed.

Lemma console_only_gather_inputs :
  emits_only (fun e => negb (is_remote e)) gather_inputs.
Proof.
  unfold gather_inputs. apply emits_only_mapM. intros kr.
  apply console_only_input_valid.
Qed.

Lemma gather_inputs_Raise (s s' : console) (e : exn) :
  gather_inputs s = (Raise e, s') -> e = EOFError.
Proof.
  rewrite gather_inputs_unfold. unfold four_inputs, bind, ret.
  destruct (input_valid "Enter Air Humidity (%): " 10 90 s)
    as [[h | e1] s1] eqn:E1;
    [| intros [= <- _]; now apply input_valid_Raise in E1].
  destruct (input_valid _ 10 45 s1) as [[t | e2] s2] eqn:E2;
    [| intros [= <- _]; now apply input_valid_Raise in E2].
  destruct (input_valid "Enter Soil pH: " 4 9 s2) as [[p | e3] s3] eqn:E3;
    [| intros [= <- _]; now apply input_valid_Raise in E3].
  destruct (input_valid "Enter Rainfall (mm): " 0 300 s3)
    as [[r | e4] s4] eqn:E4;
    [discriminate | intros [= <- _]; now apply input_valid_Raise in E4].
Qed.

(** ** Collecting the inputs *)

(** X12.  A successful collection reads at least four lines, one prompt per
    line read; the lines read are a prefix of the keyboard and the others
    stay unread; no remote call is made while collecting. *)
Theorem gather_inputs_consumes :
  forall (s s' : console) (inputs : list float),
    gather_inputs s = (Ok inputs, s') ->
    exists used out,
      stdin s = used ++ stdin s'
      /\ trace s' = trace s ++ out
      /\ prompt_count out = List.length used
      /\ (4 <= List.length used)%nat
      /\ remote_events out = [].
Proof.
  intros s s' inputs. rewrite gather_inputs_unfold.
  unfold four_inputs, bind, ret.
  pose proof (input_valid_used "Enter Air Humidity (%): " 10 90 s) as H1.
  destruct (input_valid "Enter Air Humidity (%): " 10 90 s)
    as [[h | e1] s1]; [| discriminate].
  pose proof (input_valid_used
                ("Enter Air Temperature (" ++ degree_sign ++ "C): ")
                10 45 s1) as H2.
  destruct (input_valid _ 10 45 s1) as [[t | e2] s2]; [| discriminate].
  pose proof (input_valid_used "Enter Soil pH: " 4 9 s2) as H3.
  destruct (input_valid "Enter Soil pH: " 4 9 s2)
    as [[p | e3] s3]; [| discriminate].
  pose proof (input_valid_used "Enter Rainfall (mm): " 0 300 s3) as H4.
  destruct (input_valid "Enter Rainfall (mm): " 0 300 s3)
    as [[r | e4] s4]; [| discriminate].
  intros [= _ <-]. cbn [fst snd] in *.
  destruct H1 as (u1 & o1 & Hs1 & Ht1 & Hr1 & Hc1 & Hn1).
  destruct H2 as (u2 & o2 & Hs2 & Ht2 & Hr2 & Hc2 & Hn2).
  destruct H3 as (u3 & o3 & Hs3 & Ht3 & Hr3 & Hc3 & Hn3).
  destruct H4 as (u4 & o4 & Hs4 & Ht4 & Hr4 & Hc4 & Hn4).
  exists (u1 ++ u2 ++ u3 ++ u4), (o1 ++ o2 ++ o3 ++ o4). repeat split.
  - rewrite Hs1, Hs2, Hs3, Hs4. now rewrite <- !app_assoc.
  - rewrite Ht4, Ht3, Ht2, Ht1. now rewrite <- !app_assoc.
  - rewrite !prompt_count_app, !length_app. lia.
  - rewrite !length_app.
    destruct u1; [easy |]. destruct u2; [easy |].
    destruct u3; [easy |]. destruct u4; [easy |]. cbn. lia.
  - apply remote_events_none with (fun e => negb (is_remote e)).
    + intros e He. now destruct (is_remote e).
    + now rewrite !forallb_app, Hr1, Hr2, Hr3, Hr4.
Qed.

Lemma gather_inputs_retry_consumes :
  exists used out,
    ["abc"; "80"; "20"; "6.5"; "200"; "spare"] = used ++ ["spare"]
    /\ [Prompt "Enter Air Humidity (%): ";
        Print "Invalid input. Please enter a numeric value.";
        Prompt "Enter Air Humidity (%): ";
        Prompt ("Enter Air Temperature (" ++ degree_sign ++ "C): ");
        Prompt "Enter Soil pH: ";
        Prompt "Enter Rainfall (mm): "] = [] ++ out
    /\ prompt_count out = List.length used
    /\ (4 <= List.length used)%nat
    /\ remote_events out = [].
Proof.
  apply (gather_inputs_consumes
           {| stdin := ["abc"; "80"; "20"; "6.5"; "200"; "spare"];
              trace := [] |}
           {| stdin := ["spare"];
              trace :=
                [Prompt "Enter Air Humidity (%): ";
                 Print "Invalid input. Please enter a numeric value.";
                 Prompt "Enter Air Humidity (%): ";
                 Prompt ("Enter Air Temperature (" ++ degree_sign ++ "C): ");
                 Prompt "Enter Soil pH: ";
                 Prompt "Enter Rainfall (mm): "] |}
           [f64 "80"; f64 "20"; f64 "6.5"; f64 "200"]).
  vm_compute. reflexivity.
Defined.

(** ** The prediction path *)

Lemma send_to_firebase_run (env : environment) (url crop : string)
    (s : console) :
  send_to_firebase env url crop s =
    (Ok tt,
     {| stdin := stdin s;
        trace := trace s
          ++ [FirebasePut url "/croppredicted" "crop" crop;
              Print match firebase_put env url "/croppredicted" "crop" crop
                    with
                    | Ok _ => "Prediction successfully sent to Firebase!"
                    | Raise e =>
                        "Error sending data to Firebase: " ++ exn_str e
                    end] |}).
Proof.
  unfold send_to_firebase, try_except, bind, remote_put, print, emit.
  cbn [stdin trace].
  destruct (firebase_put env url "/croppredicted" "crop" crop) as [[] | e];
    cbn [stdin trace]; now rewrite <- !app_assoc.
Qed.

(** X5.  An exception leaves [predict_and_send_to_firebase] only from the
    local steps: either the keyboard ran out while collecting ([EOFError]),
    or scaling, prediction or decoding failed on the collected inputs.  In
    both cases the console is as the collection left it, so no crop was
    printed, and no remote call was made. *)
Theorem predict_and_send_raises_before_publishing :
  forall (lib : library) (env : environment) (clf : tree lib)
         (scaler : StandardScaler.stats) (le : LabelEncoder.encoding)
         (url : string) (s s' : console) (e : exn),
    predict_and_send_to_firebase lib env clf scaler le url s = (Raise e, s') ->
    ((gather_inputs s = (Raise e, s') /\ e = EOFError)
     \/ exists inputs,
          gather_inputs s = (Ok inputs, s')
          /\ predict_crop lib clf scaler le inputs = Raise e)
    /\ exists out, trace s' = trace s ++ out /\ remote_events out = [].
Proof.
  intros lib env clf scaler le url s s' e.
  unfold predict_and_send_to_firebase, bind, lift.
  destruct (console_only_gather_inputs s) as (out & Ht & Hp).
  assert (Hr : remote_events out = []).
  { apply remote_events_none with (fun e => negb (is_remote e));
      [| exact Hp]. intros x Hx. now destruct (is_remote x). }
  destruct (gather_inputs s) as [[inputs | e0] s1] eqn:Hg; cbn [snd] in Ht.
  - destruct (predict_crop lib clf scaler le inputs) as [crop | e1] eqn:Hc.
    + unfold print. rewrite send_to_firebase_run. discriminate.
    + intros [= <- <-]. split; [right; now exists inputs | now exists out].
  - intros [= <- <-]. split; [| now exists out].
    left. split; [reflexivity |]. now apply gather_inputs_Raise in Hg.
Qed.

Lemma predict_and_send_short_keyboard :
  ((gather_inputs {| stdin := ["80"; "20"]; trace := [] |}
    = (Raise EOFError,
       {| stdin := [];
          trace := [Prompt "Enter Air Humidity (%): ";
                    Prompt ("Enter Air Temperature (" ++ degree_sign
                              ++ "C): ");
                    Prompt "Enter Soil pH: "] |})
    /\ EOFError = EOFError)
   \/ exists inputs,
        gather_inputs {| stdin := ["80"; "20"]; trace := [] |}
        = (Ok inputs,
           {| stdin := [];
              trace := [Prompt "Enter Air Humidity (%): ";
                        Prompt ("Enter Air Temperature (" ++ degree_sign
                                  ++ "C): ");
                        Prompt "Enter Soil pH: "] |})
        /\ predict_crop demo_lib O demo_scaler (LabelEncoder.fit demo_labels)
             inputs = Raise EOFError)
  /\ exists out,
       [Prompt "Enter Air Humidity (%): ";
        Prompt ("Enter Air Temperature (" ++ degree_sign ++ "C): ");
        Prompt "Enter Soil pH: "] = [] ++ out
       /\ remote_events out = [].
Proof.
  apply (predict_and_send_raises_before_publishing demo_lib
           (demo_env "23.0" (Ok tt)) O demo_scaler
           (LabelEncoder.fit demo_labels) firebase_url
           {| stdin := ["80"; "20"]; trace := [] |}
           {| stdin := [];
              trace := [Prompt "Enter Air Humidity (%): ";
                        Prompt ("Enter Air Temperature (" ++ degree_sign
                                  ++ "C): ");
                        Prompt "Enter Soil pH: "] |}
           EOFError).
  vm_compute. reflexivity.
Defined.

Lemma predict_and_send_events (lib : library) (env : environment)
    (clf : tree lib) (scaler : StandardScaler.stats)
    (le : LabelEncoder.encoding) (url : string) (s : console) :
  exists out,
    trace (snd (predict_and_send_to_firebase lib env clf scaler le url s))
      = trace s ++ out
    /\ (remote_events out = []
        \/ exists crop,
             remote_events out = [FirebasePut url "/croppredicted" "crop" crop]).
Proof.
  unfold predict_and_send_to_firebase, bind, lift.
  destruct (console_only_gather_inputs s) as (out & Ht & Hp).
  assert (Hr : remote_events out = []).
  { apply remote_events_none with (fun e => negb (is_remote e));
      [| exact Hp]. intros x Hx. now destruct (is_remote x). }
  destruct (gather_inputs s) as [[inputs | e0] s1]; cbn [snd] in Ht;
    [| exists out; auto].
  destruct (predict_crop lib clf scaler le inputs) as [crop | e1];
    [| exists out; auto].
  unfold print. rewrite send_to_firebase_run. cbn [snd trace emit].
  eexists. split.
  - rewrite Ht, <- !app_assoc. reflexivity.
  - right. exists crop. rewrite remote_events_app, Hr. reflexivity.
Qed.

(** ** main *)

(** X6.  When the table cannot be read, [main] ends with the reader's
    exception at once: nothing is printed, the remote store is not asked
    and the keyboard is not read. *)
Theorem main_unreadable_table :
  forall (lib : library) (env : environment) (s : console) (e : exn),
    read_csv env filepath = Raise e ->
    main lib env s = (Raise e, s).
Proof.
  intros lib env s e H.
  unfold main, preprocess_data, bind, lift. now rewrite H.
Qed.

Lemma main_missing_file :
  main demo_lib missing_file_env demo_console
  = (Raise (FileNotFoundError "cpdata1.csv"), demo_console).
Proof.
  apply (main_unreadable_table demo_lib missing_file_env demo_console
           (FileNotFoundError "cpdata1.csv")).
  reflexivity.
Defined.

(** X7.  When the table has no [label] column, [main] prints the heading
    and the first row and then ends with [KeyError('label')] (whose text
    is the quoted key): no model is
    trained, the remote store is not asked and the keyboard is not read. *)
Theorem main_missing_label :
  forall (lib : library) (env : environment) (s : console)
         (data : DataFrame),
    read_csv env filepath = Ok data ->
    label data = None ->
    main lib env s =
      (Raise (KeyError "'label'"),
       {| stdin := stdin s;
          trace := trace s
            ++ [Print "First row of data:"; Print (render_head lib data)] |}).
Proof.
  intros lib env s data Hread Hlabel.
  unfold main, preprocess_data, bind, lift, getitem_label, print, emit.
  rewrite Hread, Hlabel. cbn [stdin trace]. now rewrite <- app_assoc.
Qed.

Lemma main_unlabelled_table :
  main demo_lib unlabelled_env demo_console
  = (Raise (KeyError "'label'"),
     {| stdin := ["80"; "20"; "6.5"; "200"];
        trace := [Print "First row of data:"; Print "(first row)"] |}).
Proof.
  apply (main_missing_label demo_lib unlabelled_env demo_console
           unlabelled_table); reflexivity.
Defined.

(** X8.  In one run [main] calls the remote store at most twice and never
    repeats a call: it makes no call at all (the preparation failed), or
    the one [get] of "/Realtime", or that [get] followed by one [put] of a
    crop under "/croppredicted".  There is no [put] without the [get]
    before it and no retry. *)
Theorem main_remote_calls :
  forall (lib : library) (env : environment) (s : console),
    exists out,
      trace (snd (main lib env s)) = trace s ++ out
      /\ (remote_events out = []
          \/ remote_events out = [FirebaseGet firebase_url "/Realtime"]
          \/ exists crop,
               remote_events out
               = [FirebaseGet firebase_url "/Realtime";
                  FirebasePut firebase_url "/croppredicted" "crop" crop]).
Proof.
  intros lib env s. rewrite main_unfold.
  destruct (prints_only_prepare lib env s) as (o1 & Ht1 & Hp1).
  assert (Hr1 : remote_events o1 = []).
  { apply remote_events_none with is_print; [| exact Hp1].
    now intros [ | | | ]. }
  destruct (prepare lib env s) as [[[[clf scaler] le] | e] s1];
    cbn [snd] in Ht1; [| exists o1; auto].
  destruct (firebase_get env firebase_url "/Realtime") as [[v |] | e].
  - destruct (predict_and_send_events lib env clf scaler le firebase_url
                (emit (FirebaseGet firebase_url "/Realtime") s1))
      as (o2 & Ht2 & Hr2).
    exists (o1 ++ FirebaseGet firebase_url "/Realtime" :: o2). split.
    + rewrite Ht2. cbn [emit trace]. rewrite Ht1, <- !app_assoc. reflexivity.
    + rewrite remote_events_app, Hr1. cbn [app remote_events filter is_remote].
      fold (remote_events o2).
      destruct Hr2 as [-> | (crop & ->)]; [now right; left |].
      right; right. now exists crop.
  - exists (o1 ++ [FirebaseGet firebase_url "/Realtime";
                   Print "Failed to retrieve data from Firebase."]). split.
    + cbn [print emit snd trace]. rewrite Ht1, <- !app_assoc. reflexivity.
    + rewrite remote_events_app, Hr1. right; left. reflexivity.
  - exists (o1 ++ [FirebaseGet firebase_url "/Realtime"]). split.
    + cbn [emit snd trace]. now rewrite Ht1, <- app_assoc.
    + rewrite remote_events_app, Hr1. right; left. reflexivity.
Qed.

(** ** Encoding the label column and decoding it again *)

Lemma encode_fit_In (labels : list string) (l : string) :
  In l labels ->
  exists c,
    LabelEncoder.encode (LabelEncoder.fit labels) l = inr c
    /\ LabelEncoder.decode (LabelEncoder.fit labels) c = inr l.
Proof.
  intros H. apply In_fit in H. destruct (index_In _ _ H) as (c & Hc & Hn).
  exists c. unfold LabelEncoder.encode, LabelEncoder.decode.
  now rewrite Hc, Hn.
Qed.

Lemma inverse_transform_codes (le : LabelEncoder.encoding)
    (ls : list string) :
  (forall l, In l ls ->
     exists c, LabelEncoder.encode le l = inr c
               /\ LabelEncoder.decode le c = inr l) ->
  LabelEncoder.inverse_transform le
    (flat_map (fun l => match LabelEncoder.encode le l with
                        | inr c => [c]
                        | inl _ => []
                        end) ls)
  = inr ls.
Proof.
  induction ls as [| l ls IH]; intros H; [reflexivity |].
  destruct (H l (or_introl eq_refl)) as (c & Hc & Hd).
  cbn [flat_map]. rewrite Hc. cbn [app LabelEncoder.inverse_transform].
  rewrite Hd, IH; [reflexivity |]. intros x Hx. apply H. now right.
Qed.

Lemma fit_transform_length (labels : list string) :
  List.length (snd (LabelEncoder.fit_transform labels)) = List.length labels.
Proof.
  unfold LabelEncoder.fit_transform. cbn [snd].
  generalize (fun l (H : In l labels) => encode_fit_In labels l H).
  generalize (LabelEncoder.fit labels) as le. intros le.
  induction labels as [| l ls IH]; intros H; [reflexivity |].
  destruct (H l (or_introl eq_refl)) as (c & Hc & _).
  cbn [flat_map]. rewrite Hc. cbn [app List.length]. f_equal.
  apply IH. intros x Hx. apply H. now right.
Qed.

(** X10.  The codes that [le.fit_transform] gives to the label column
    (modelled after the design document, codes in ascending order of the
    distinct names) decode back, through [le.inverse_transform], to the
    column itself, for every column: one code per row, and every code the
    notebook stores stands for the crop name of its row. *)
Theorem inverse_transform_fit_transform :
  forall labels : list string,
    LabelEncoder.inverse_transform
      (fst (LabelEncoder.fit_transform labels))
      (snd (LabelEncoder.fit_transform labels))
    = inr labels
    /\ List.length (snd (LabelEncoder.fit_transform labels))
       = List.length labels.
Proof.
  intros labels. split; [| apply fit_transform_length].
  unfold LabelEncoder.fit_transform. cbn [fst snd].
  apply inverse_transform_codes. intros l. apply encode_fit_In.
Qed.

(** ** Shapes of what preprocess_data returns *)

Lemma transform_length (st : StandardScaler.stats)
    (rows rows' : list (list float)) :
  StandardScaler.transform st rows = Ok rows' ->
  List.length rows' = List.length rows.
Proof.
  unfold StandardScaler.transform.
  destruct (forallb _ rows); [| discriminate].
  intros [= <-]. apply length_map.
Qed.

Lemma split_data_shapes (lib : library) (data : DataFrame)
    (labels : list string) :
  (forall seed N, Permutation (shuffle lib seed N) (seq 0 N)) ->
  let '(X_train, X_test, y_train, y_test, le) :=
    split_data lib data labels in
  List.length X_train = List.length y_train
  /\ List.length X_test = List.length y_test
  /\ (List.length y_train + List.length y_test = List.length labels)%nat
  /\ List.length y_test = Splitter.test_count (3 # 10)%Q (List.length labels)
  /\ le = LabelEncoder.fit labels.
Proof.
  intros Hperm. unfold split_data.
  pose proof (fit_transform_length labels) as Hy.
  destruct (LabelEncoder.fit_transform labels) as [le y] eqn:Hft.
  cbn [snd] in Hy.
  assert (Hle : le = LabelEncoder.fit labels).
  { unfold LabelEncoder.fit_transform in Hft. now injection Hft as <- _. }
  unfold Splitter.train_test_split.
  set (X := feature_rows data (List.length labels)).
  assert (HX : List.length X = List.length labels).
  { unfold X, feature_rows. now rewrite length_map, length_seq. }
  rewrite HX.
  pose proof (split_indices_partition (shuffle lib) Hperm
                (List.length labels) (3 # 10)%Q 42) as Hp.
  assert (Hlen : List.length (shuffle lib 42 (List.length labels))
                 = List.length labels).
  { rewrite (Permutation_length (Hperm 42 (List.length labels))).
    apply length_seq. }
  destruct (test_count_le (3 # 10)%Q (List.length labels)) as [Hk _];
    [discriminate | discriminate |].
  unfold Splitter.split_indices in *.
  destruct Hp as (_ & _ & _ & Hcover).
  assert (Htrain : forall i,
             In i (skipn (Splitter.test_count (3 # 10)%Q (List.length labels))
                     (shuffle lib 42 (List.length labels))) ->
             (i < List.length labels)%nat)
    by (intros i Hi; apply Hcover; now left).
  assert (Htest : forall i,
             In i (firstn (Splitter.test_count (3 # 10)%Q (List.length labels))
                     (shuffle lib 42 (List.length labels))) ->
             (i < List.length labels)%nat)
    by (intros i Hi; apply Hcover; now right).
  rewrite !rows_at_length by (rewrite ?HX, ?Hy; assumption).
  rewrite length_firstn, length_skipn, Hlen.
  repeat split; try reflexivity; try assumption; lia.
Qed.

(** X9.  Given a shuffle that permutes the row indices, what
    [preprocess_data] returns is aligned: as many scaled training rows as
    training codes, as many scaled test rows as test codes, and the two
    parts together as many as the table has rows. *)
Theorem preprocess_data_aligned :
  forall (lib : library) (env : environment) (path : string) (s : console)
         (X_train X_test : list (list float)) (y_train y_test : list nat)
         (le : LabelEncoder.encoding) (scaler : StandardScaler.stats),
    (forall seed N, Permutation (shuffle lib seed N) (seq 0 N)) ->
    fst (preprocess_data lib env path s)
      = Ok (X_train, X_test, y_train, y_test, le, scaler) ->
    List.length X_train = List.length y_train
    /\ List.length X_test = List.length y_test
    /\ exists data labels,
         read_csv env path = Ok data
         /\ label data = Some labels
         /\ (List.length y_train + List.length y_test
             = List.length labels)%nat.
Proof.
  intros lib env path s X_train X_test y_train y_test le scaler Hperm.
  unfold preprocess_data, getitem_label, bind, lift, print, ret.
  destruct (read_csv env path) as [data | e]; [| discriminate].
  destruct (label data) as [labels |] eqn:Hlabel; [| discriminate].
  pose proof (split_data_shapes lib data labels Hperm) as Hs.
  destruct (split_data lib data labels)
    as [[[[X_tr X_te] y_tr] y_te] le0].
  destruct Hs as (H1 & H2 & H3 & _ & _).
  destruct (StandardScaler.transform (StandardScaler.fit X_tr) X_tr)
    as [X_tr' |] eqn:Etr; [| discriminate].
  destruct (StandardScaler.transform (StandardScaler.fit X_tr) X_te)
    as [X_te' |] eqn:Ete; [| discriminate].
  cbn [fst]. intros [= <- <- <- <- _ _].
  apply transform_length in Etr, Ete.
  repeat split; try congruence.
  exists data, labels. repeat split; assumption.
Qed.

Lemma preprocess_demo_table_aligned :
  exists X_train X_test y_train y_test,
    fst (preprocess_data demo_lib (demo_env "23.0" (Ok tt)) filepath
           demo_console)
    = Ok (X_train, X_test, y_train, y_test,
          LabelEncoder.fit demo_labels, demo_scaler)
    /\ List.length X_train = List.length y_train
    /\ List.length X_test = List.length y_test
    /\ (List.length y_train + List.length y_test = 4)%nat.
Proof.
  eexists. eexists. eexists. eexists.
  split; [vm_compute; reflexivity |].
  destruct (preprocess_data_aligned demo_lib (demo_env "23.0" (Ok tt))
              filepath demo_console _ _ _ _ _ _ rotate_perm
              ltac:(vm_compute; reflexivity)) as (H1 & H2 & _).
  split; [exact H1 |]. split; [exact H2 | reflexivity].
Defined.

(** ** What main hands to the prediction *)

(** How the three values that [main] passes on are built. *)
Lemma prepare_components :
  forall (lib : library) (env : environment) (s s' : console)
         (clf : tree lib) (scaler : StandardScaler.stats)
         (le : LabelEncoder.encoding),
    prepare lib env s = (Ok (clf, scaler, le), s') ->
    exists data labels X_train,
      read_csv env filepath = Ok data
      /\ label data = Some labels
      /\ le = fst (LabelEncoder.fit_transform labels)
      /\ scaler = StandardScaler.fit (train_rows lib data labels)
      /\ StandardScaler.transform scaler (train_rows lib data labels)
         = Ok X_train
      /\ clf = tree_fit lib X_train (train_codes lib data labels).
Proof.
  intros lib env s s' clf scaler le.
  unfold prepare, preprocess_data, train_and_evaluate_model, getitem_label,
    train_rows, train_codes, bind, lift, print, ret.
  destruct (read_csv env filepath) as [data | e]; [| discriminate].
  destruct (label data) as [labels |] eqn:Hlabel; [| discriminate].
  assert (Hle : let '(_, _, _, _, le0) := split_data lib data labels in
                le0 = fst (LabelEncoder.fit_transform labels)).
  { unfold split_data.
    destruct (LabelEncoder.fit_transform labels) as [le0 y].
    destruct (Splitter.train_test_split _ _ _ _ _) as [[[a b] c] d].
    reflexivity. }
  destruct (split_data lib data labels)
    as [[[[X_tr X_te] y_tr] y_te] le0] eqn:Hsplit.
  destruct (StandardScaler.transform (StandardScaler.fit X_tr) X_tr)
    as [X_tr' |] eqn:Etr; [| discriminate].
  destruct (StandardScaler.transform (StandardScaler.fit X_tr) X_te)
    as [X_te' |]; [| discriminate].
  destruct (classification_report lib y_te _ le0) as [report |];
    [| discriminate].
  intros [= <- <- <- _].
  exists data, labels, X_tr'. rewrite Hsplit. repeat split; assumption.
Qed.

Lemma prepare_demo_components :
  exists data labels X_train,
    read_csv (demo_env "23.0" (Ok tt)) filepath = Ok data
    /\ label data = Some labels
    /\ LabelEncoder.fit demo_labels = fst (LabelEncoder.fit_transform labels)
    /\ demo_scaler = StandardScaler.fit (train_rows demo_lib data labels)
    /\ StandardScaler.transform demo_scaler (train_rows demo_lib data labels)
       = Ok X_train
    /\ 1%nat = tree_fit demo_lib X_train (train_codes demo_lib data labels).
Proof.
  apply (prepare_components demo_lib (demo_env "23.0" (Ok tt))
           demo_console
           {| stdin := stdin demo_console;
              trace := [Print "First row of data:"; Print "(first row)";
                        Print "Classification Report:"; Print "(report)";
                        Print "Model Accuracy: 100.00%"] |}
           1%nat demo_scaler (LabelEncoder.fit demo_labels)).
  vm_compute. reflexivity.
Defined.

Lemma train_codes_labels (lib : library) (data data' : DataFrame)
    (labels : list string) :
  train_codes lib data labels = train_codes lib data' labels.
Proof.
  unfold train_codes, split_data.
  destruct (LabelEncoder.fit_transform labels) as [le y].
  unfold Splitter.train_test_split, feature_rows.
  rewrite !length_map, !length_seq.
  destruct (Splitter.split_indices (shuffle lib) (List.length labels)
              (3 # 10)%Q 42) as [train test].
  reflexivity.
Qed.

(** X11.  The feature values of the test rows do not reach the prediction:
    two runs of the preparation whose label columns agree and whose
    unscaled training rows agree pass on the same label encoding and the
    same scaler, and their classifiers are fitted on the same scaled rows
    and the same codes. *)
Theorem prepare_ignores_test_features :
  forall (lib : library) (env1 env2 : environment)
         (s1 s2 s1' s2' : console) (clf1 clf2 : tree lib)
         (scaler1 scaler2 : StandardScaler.stats)
         (le1 le2 : LabelEncoder.encoding),
    prepare lib env1 s1 = (Ok (clf1, scaler1, le1), s1') ->
    prepare lib env2 s2 = (Ok (clf2, scaler2, le2), s2') ->
    loaded_labels env1 filepath = loaded_labels env2 filepath ->
    loaded_train_rows lib env1 filepath
      = loaded_train_rows lib env2 filepath ->
    le1 = le2
    /\ scaler1 = scaler2
    /\ exists X_train y_train,
         clf1 = tree_fit lib X_train y_train
         /\ clf2 = tree_fit lib X_train y_train.
Proof.
  intros lib env1 env2 s1 s2 s1' s2' clf1 clf2 scaler1 scaler2 le1 le2
    H1 H2 Hlabels Hrows.
  apply prepare_components in H1
    as (d1 & l1 & X1 & Hr1 & Hl1 & -> & -> & Ht1 & ->).
  apply prepare_components in H2
    as (d2 & l2 & X2 & Hr2 & Hl2 & -> & -> & Ht2 & ->).
  unfold loaded_labels, loaded_train_rows in *.
  rewrite Hr1, Hr2, ?Hl1, ?Hl2 in *.
  injection Hlabels as <-. injection Hrows as Hrows.
  rewrite Hrows in *. rewrite Ht1 in Ht2. injection Ht2 as <-.
  repeat split.
  exists X1, (train_codes lib d1 l1). split; [reflexivity |].
  now rewrite (train_codes_labels lib d2 d1 l1).
Qed.

Lemma prepare_two_tables_same_components :
  test_rows demo_lib (demo_table "23.0") demo_labels
    <> test_rows demo_lib (demo_table "35.5") demo_labels
  /\ LabelEncoder.fit demo_labels = LabelEncoder.fit demo_labels
  /\ demo_scaler = demo_scaler
  /\ exists X_train y_train,
       1%nat = tree_fit demo_lib X_train y_train
       /\ 1%nat = tree_fit demo_lib X_train y_train.
Proof.
  split; [vm_compute; discriminate |].
  apply (prepare_ignores_test_features demo_lib
           (demo_env "23.0" (Ok tt)) (demo_env "35.5" (Ok tt))
           demo_console demo_console
           {| stdin := stdin demo_console;
              trace := [Print "First row of data:"; Print "(first row)";
                        Print "Classification Report:"; Print "(report)";
                        Print "Model Accuracy: 100.00%"] |}
           {| stdin := stdin demo_console;
              trace := [Print "First row of data:"; Print "(first row)";
                        Print "Classification Report:"; Print "(report)";
                        Print "Model Accuracy: 100.00%"] |}
           1%nat 1%nat demo_scaler demo_scaler
           (LabelEncoder.fit demo_labels) (LabelEncoder.fit demo_labels)).
  - vm_compute; reflexivity.
  - vm_compute; reflexivity.
  - reflexivity.
  - vm_compute; reflexivity.
Defined.
